(** * InfraStack: the ECS/Fargate + RDS topology of [lib/infra-stack.ts]

    The repository is one class, [InfraStack], whose constructor declares a
    virtual network, a security group, a container cluster with one Fargate
    service, an application load balancer and a PostgreSQL instance through
    the aws-cdk-lib construct library.  The constructor is a straight line of
    construct instantiations and method calls that mutate shared construct
    objects (security groups, the task definition, the service, the listener
    and its target group).

    The embedding follows that shape:
    - the construct tree of the stack is an explicit store, an association
      list from construct paths to construct records, kept in creation order;
      a construct handle held by a [const] of the source is the path of the
      construct, so that two holders of one handle see one object;
    - the constructor runs in a state-and-error monad over that store: a
      [throw] of the library is an error result;
    - string-valued attributes such as [lb.loadBalancerDnsName] are tokens:
      a number drawn from a run-wide counter, recorded in a token table and
      resolved when the template is synthesized.

    The construct library is not part of the repository; its operations are
    embedded as aws-cdk-lib v2 defines them, each under the name it has
    there.  Each L2 construct is stored together with its primary resource
    under the path of the L2 construct.  IAM roles and policies, log groups,
    route tables, elastic IPs and gateway attachments are not represented;
    address range allocation is not represented either. *)

From Stdlib Require Import String Ascii List ZArith Bool Arith Lia DecimalString.
From ExtLib Require Import Structures.Monad Structures.MonadState Structures.MonadExc.
From ExtLib Require Import Data.Monads.StateMonad Data.Monads.EitherMonad.
Import ListNotations.
Import MonadNotation.
Local Open Scope monad_scope.
Local Open Scope string_scope.

#[local] Existing Instance Monad_stateT.

(** ** Identifiers *)

(** A construct path relative to the stack, ids joined by [/]. *)
Definition Path := string.

Definition child (scope : Path) (id : string) : Path :=
  if String.eqb scope "" then id else scope ++ "/" ++ id.

Fixpoint joinComponents (p : Path) : string :=
  match p with
  | EmptyString => EmptyString
  | String c rest =>
      if Ascii.eqb c "/"%char then joinComponents rest else String c (joinComponents rest)
  end.

(** [Names.uniqueId]: the id of the stack and the path components below it
    run together.  The library appends a hash of the same path, which adds
    nothing to tell two constructs apart and is left out. *)
Definition uniqueId (stack : string) (p : Path) : string := stack ++ joinComponents p.

Definition string_of_nat (n : nat) : string := NilEmpty.string_of_uint (Nat.to_uint n).
Definition string_of_Z (z : Z) : string := NilZero.string_of_int (Z.to_int z).

(** The i-th availability zone the environment of the stack offers: a name
    such as [us-east-1a] under a concrete environment, [Fn::Select \[i,
    Fn::GetAZs\]] under an environment-agnostic one. *)
Definition AvailabilityZone := nat.

(** What the scope and the stack props resolve to for this stack: the
    zones [stack.availabilityZones] returns. *)
Record Environment := { zoneCount : nat }.

Definition Stack_availabilityZones (env : Environment) : list AvailabilityZone :=
  seq 0 (zoneCount env).

(** An environment-agnostic stack sees two zones. *)
Definition agnostic : Environment := {| zoneCount := 2 |}.

(** ** Tokens *)

Inductive Intrinsic :=
| Fn_GetAtt (logicalId : Path) (attribute : string).

(** A string of the program: a literal, or the encoding of a token. *)
Inductive StringValue :=
| Literal (s : string)
| TokenString (key : nat).

(** A string of the template. *)
Inductive TemplateValue :=
| TLiteral (s : string)
| TIntrinsic (i : Intrinsic).

Definition token_eqb : nat -> nat -> bool := Nat.eqb.

(** ** aws-ec2 data *)

Inductive SubnetType := PUBLIC | PRIVATE_WITH_EGRESS | PRIVATE_ISOLATED.

Definition SubnetType_eqb (a b : SubnetType) : bool :=
  match a, b with
  | PUBLIC, PUBLIC | PRIVATE_WITH_EGRESS, PRIVATE_WITH_EGRESS
  | PRIVATE_ISOLATED, PRIVATE_ISOLATED => true
  | _, _ => false
  end.

Record SubnetConfiguration := {
  cidrMask : Z;
  name : string;
  subnetType : SubnetType;
}.

Record VpcProps := {
  maxAzs : nat;
  natGateways : nat;
  subnetConfiguration : list SubnetConfiguration;
}.

Record SubnetSelection := { sel_subnetType : option SubnetType }.

Inductive Router :=
| Router_GATEWAY (igw : Path)
| Router_NAT_GATEWAY (nat : Path).

Record Vpc := {
  vpc_availabilityZones : list AvailabilityZone;
  vpc_subnetConfiguration : list SubnetConfiguration;
}.

Record Subnet := {
  subnet_vpc : Path;
  subnet_availabilityZone : AvailabilityZone;
  subnet_type : SubnetType;
  subnet_groupName : string;
  subnet_defaultRoute : option Router;
}.

Inductive Peer :=
| Peer_ipv4 (cidrIp : string)
| Peer_securityGroup (sg : Path).

Definition Peer_anyIpv4 : Peer := Peer_ipv4 "0.0.0.0/0".

Inductive Port :=
| Port_tcp (port : Z)
| Port_udp (port : Z)
| Port_tcpRange (startPort endPort : Z)
| Port_icmpTypeAndCode (type code : Z)
| Port_allTraffic.

Definition Port_toString (p : Port) : string :=
  match p with
  | Port_tcp n => string_of_Z n
  | Port_udp n => "UDP " ++ string_of_Z n
  | Port_tcpRange a b => string_of_Z a ++ "-" ++ string_of_Z b
  | Port_icmpTypeAndCode t c => "ICMP Type " ++ string_of_Z t ++ " Code " ++ string_of_Z c
  | Port_allTraffic => "ALL TRAFFIC"
  end.

Record Rule := {
  rule_peer : Peer;
  rule_port : Port;
  rule_description : string;
}.

Definition Peer_eqb (a b : Peer) : bool :=
  match a, b with
  | Peer_ipv4 x, Peer_ipv4 y => String.eqb x y
  | Peer_securityGroup x, Peer_securityGroup y => String.eqb x y
  | _, _ => false
  end.

Definition Port_eqb (a b : Port) : bool :=
  match a, b with
  | Port_tcp x, Port_tcp y => Z.eqb x y
  | Port_udp x, Port_udp y => Z.eqb x y
  | Port_tcpRange a b, Port_tcpRange a' b' => Z.eqb a a' && Z.eqb b b'
  | Port_icmpTypeAndCode t c, Port_icmpTypeAndCode t' c' => Z.eqb t t' && Z.eqb c c'
  | Port_allTraffic, Port_allTraffic => true
  | _, _ => false
  end.

(** [ingressRulesEqual], [egressRulesEqual]: the peer and the port decide,
    the description does not. *)
Definition Rule_eqb (a b : Rule) : bool :=
  Peer_eqb (rule_peer a) (rule_peer b) && Port_eqb (rule_port a) (rule_port b).

(** The egress rule of a group that allows all outbound traffic. *)
Definition ALLOW_ALL_RULE : Rule :=
  {| rule_peer := Peer_anyIpv4; rule_port := Port_allTraffic;
     rule_description := "Allow all outbound traffic by default" |}.

(** The egress rule of a group that allows none: it matches no traffic. *)
Definition MATCH_NO_TRAFFIC : Rule :=
  {| rule_peer := Peer_ipv4 "255.255.255.255/32"; rule_port := Port_icmpTypeAndCode 252 86;
     rule_description := "Disallow all traffic" |}.

Record SecurityGroup := {
  sg_vpc : Path;
  sg_description : string;
  sg_allowAllOutbound : bool;
  sg_directIngressRules : list Rule;
  sg_directEgressRules : list Rule;
}.

(** What [connections] of a connectable holds: its security groups, and the
    peers that stand for it in a rule of another group. *)
Record Connections := {
  conn_securityGroups : list Path;
  conn_securityGroupRules : list Peer;
}.

(** ** aws-ecs data *)

Inductive Protocol := TCP | UDP.

Definition Protocol_eqb (a b : Protocol) : bool :=
  match a, b with TCP, TCP | UDP, UDP => true | _, _ => false end.

Inductive NetworkMode := NetworkMode_AWS_VPC | NetworkMode_BRIDGE | NetworkMode_HOST | NetworkMode_NONE.

Record PortMapping := {
  containerPort : Z;
  hostPort : option Z;
  protocol : option Protocol;
}.

(** [ecr.Repository.fromRepositoryName]: a reference, no resource. *)
Record Repository := { repositoryName : string }.

Record ContainerImage := { image_repository : Repository; image_tag : string }.

Record AwsLogDriver := { streamPrefix : string }.

Record ContainerDefinitionOptions := {
  image : ContainerImage;
  logging : option AwsLogDriver;
}.

Record ContainerDefinition := {
  containerName : string;
  container_image : ContainerImage;
  container_logging : option AwsLogDriver;
  essential : bool;
  portMappings : list PortMapping;
}.

Record TaskDefinition := {
  memoryLimitMiB : Z;
  cpu : Z;
  networkMode : NetworkMode;
  containers : list ContainerDefinition;
  defaultContainer : option string;
}.

Record Cluster := { cluster_vpc : Path }.

Record FargateServiceProps := {
  cluster : Path;
  taskDefinition : Path;
  securityGroups : list Path;
  assignPublicIp : option bool;
  desiredCount : option nat;
  vpcSubnets : option SubnetSelection;
}.

(** One entry of the service's [LoadBalancers] property. *)
Record LoadBalancerBinding := {
  lbb_targetGroup : Path;
  lbb_containerName : string;
  lbb_containerPort : Z;
}.

Record Service := {
  svc_cluster : Path;
  svc_taskDefinition : Path;
  svc_desiredCount : option nat;
  svc_assignPublicIp : bool;
  svc_subnets : list Path;
  svc_securityGroups : list Path;
  svc_loadBalancers : list LoadBalancerBinding;
}.

(** ** aws-elasticloadbalancingv2 data *)

Inductive ApplicationProtocol := HTTP | HTTPS.
Inductive TargetType := TargetType_INSTANCE | TargetType_IP.

Definition TargetType_eqb (a b : TargetType) : bool :=
  match a, b with
  | TargetType_INSTANCE, TargetType_INSTANCE | TargetType_IP, TargetType_IP => true
  | _, _ => false
  end.

Record ApplicationLoadBalancerProps := {
  alb_vpc : Path;
  internetFacing : option bool;
  alb_vpcSubnets : option SubnetSelection;
}.

Record LoadBalancer := {
  lb_vpc : Path;
  lb_internetFacing : bool;
  lb_subnets : list Path;
  lb_securityGroups : list Path;
}.

Record Listener := {
  listener_loadBalancer : Path;
  listener_port : Z;
  listener_protocol : ApplicationProtocol;
  listener_defaultAction : option (list Path);
}.

Record TargetGroup := {
  tg_vpc : Path;
  tg_port : option Z;
  tg_protocol : option ApplicationProtocol;
  tg_targetType : option TargetType;
  tg_connectableMembers : list (Path * Port);
  tg_listeners : list Path;
}.

(** ** aws-rds data *)

Inductive Duration := Duration_days (amount : Z).

Definition toDays (d : Duration) : Z := match d with Duration_days n => n end.

Inductive RemovalPolicy := RemovalPolicy_DESTROY | RemovalPolicy_RETAIN | RemovalPolicy_SNAPSHOT.

Inductive Credentials := fromGeneratedSecret (username : string).

Record InstanceEngine := { engineType : string; engineVersion : string }.

Definition DatabaseInstanceEngine_postgres (version : string) : InstanceEngine :=
  {| engineType := "postgres"; engineVersion := version |}.

Definition VER_13_13 : string := "13.13".

Inductive InstanceClass := T3.
Inductive InstanceSize := MICRO.

Definition InstanceType_of (c : InstanceClass) (s : InstanceSize) : string :=
  match c, s with T3, MICRO => "t3.micro" end.

Record DatabaseInstanceProps := {
  engine : InstanceEngine;
  instanceType : string;
  db_vpc : Path;
  db_vpcSubnets : option SubnetSelection;
  credentials : Credentials;
  multiAz : option bool;
  allocatedStorage : option Z;
  maxAllocatedStorage : option Z;
  deletionProtection : option bool;
  backupRetention : option Duration;
  removalPolicy : option RemovalPolicy;
}.

Record SubnetGroup := {
  sng_description : string;
  sng_subnets : list Path;
}.

(** A [DatabaseSecret]: Secrets Manager generates the password under the
    key [password] of a JSON document that carries the user name. *)
Record DatabaseSecret := {
  secret_username : string;
  secret_generateStringKey : string;
  secret_passwordLength : Z;
}.

Record DatabaseInstance := {
  dbi_engine : InstanceEngine;
  dbi_instanceClass : string;
  dbi_subnetGroup : Path;
  dbi_vpcSecurityGroups : list Path;
  dbi_masterUsername : string;
  dbi_masterUserPasswordSecret : Path;
  dbi_multiAz : option bool;
  dbi_allocatedStorage : Z;
  dbi_maxAllocatedStorage : option Z;
  dbi_deletionProtection : option bool;
  dbi_backupRetentionPeriod : option Z;
  dbi_deletionPolicy : RemovalPolicy;
}.

(** ** The construct store *)

Inductive Construct :=
| CVpc (v : Vpc)
| CSubnet (s : Subnet)
| CInternetGateway (vpc : Path)
| CNatGateway (subnet : Path)
| CSecurityGroup (g : SecurityGroup)
| CSecurityGroupIngress (group : Path) (r : Rule)
| CSecurityGroupEgress (group : Path) (r : Rule)
| CRepository (r : Repository)
| CCluster (c : Cluster)
| CTaskDefinition (t : TaskDefinition)
| CService (s : Service)
| CLoadBalancer (l : LoadBalancer)
| CListener (l : Listener)
| CTargetGroup (g : TargetGroup)
| CSubnetGroup (g : SubnetGroup)
| CSecret (s : DatabaseSecret)
| CSecretTargetAttachment (secret target : Path)
| CDatabaseInstance (d : DatabaseInstance)
| COutput (value : StringValue).

Record Stack := {
  stackId : string;
  constructs : list (Path * Construct);
  nextToken : nat;
  tokens : list (nat * Intrinsic);
}.

Definition M := stateT Stack (sum string).

Definition lookup (p : Path) (cs : list (Path * Construct)) : option Construct :=
  match find (fun e => String.eqb (fst e) p) cs with
  | Some e => Some (snd e)
  | None => None
  end.

Fixpoint replaceConstruct (p : Path) (c : Construct) (cs : list (Path * Construct)) :=
  match cs with
  | [] => []
  | (q, d) :: rest => if String.eqb q p then (q, c) :: rest else (q, d) :: replaceConstruct p c rest
  end.

Definition tryFindChild (p : Path) : M (option Construct) :=
  s <- get ;; ret (lookup p (constructs s)).

(** [new C(scope, id, ...)]: the tree refuses a second child of one name.
    The message of the library goes on to name the scope. *)
Definition addConstruct (p : Path) (c : Construct) : M unit :=
  s <- get ;;
  match lookup p (constructs s) with
  | Some _ => raise ("There is already a Construct with name '" ++ p ++ "'")
  | None => put {| stackId := stackId s; constructs := constructs s ++ [(p, c)];
                   nextToken := nextToken s; tokens := tokens s |}
  end.

Definition setConstruct (p : Path) (c : Construct) : M unit :=
  s <- get ;;
  put {| stackId := stackId s; constructs := replaceConstruct p c (constructs s);
         nextToken := nextToken s; tokens := tokens s |}.

(** [Token.asString]: the next key of the run, recorded with its value. *)
Definition Token_asString (i : Intrinsic) : M StringValue :=
  s <- get ;;
  put {| stackId := stackId s; constructs := constructs s; nextToken := S (nextToken s);
         tokens := (nextToken s, i) :: tokens s |} ;;
  ret (TokenString (nextToken s)).

Fixpoint forEach {A} (l : list A) (f : A -> M unit) : M unit :=
  match l with
  | [] => ret tt
  | x :: rest => f x ;; forEach rest f
  end.

Definition getVpc (p : Path) : M Vpc :=
  c <- tryFindChild p ;;
  match c with Some (CVpc v) => ret v | _ => raise ("not a Vpc: " ++ p) end.

Definition getSubnet (p : Path) : M Subnet :=
  c <- tryFindChild p ;;
  match c with Some (CSubnet v) => ret v | _ => raise ("not a Subnet: " ++ p) end.

Definition getSecurityGroup (p : Path) : M SecurityGroup :=
  c <- tryFindChild p ;;
  match c with Some (CSecurityGroup v) => ret v | _ => raise ("not a SecurityGroup: " ++ p) end.

Definition getCluster (p : Path) : M Cluster :=
  c <- tryFindChild p ;;
  match c with Some (CCluster v) => ret v | _ => raise ("not a Cluster: " ++ p) end.

Definition getTaskDefinition (p : Path) : M TaskDefinition :=
  c <- tryFindChild p ;;
  match c with Some (CTaskDefinition v) => ret v | _ => raise ("not a TaskDefinition: " ++ p) end.

Definition getService (p : Path) : M Service :=
  c <- tryFindChild p ;;
  match c with Some (CService v) => ret v | _ => raise ("not a Service: " ++ p) end.

Definition getLoadBalancer (p : Path) : M LoadBalancer :=
  c <- tryFindChild p ;;
  match c with Some (CLoadBalancer v) => ret v | _ => raise ("not a LoadBalancer: " ++ p) end.

Definition getListener (p : Path) : M Listener :=
  c <- tryFindChild p ;;
  match c with Some (CListener v) => ret v | _ => raise ("not a Listener: " ++ p) end.

Definition getTargetGroup (p : Path) : M TargetGroup :=
  c <- tryFindChild p ;;
  match c with Some (CTargetGroup v) => ret v | _ => raise ("not a TargetGroup: " ++ p) end.

(** ** aws-ec2: the virtual network *)

Definition subnetId (name : string) (i : nat) : string :=
  name ++ "Subnet" ++ string_of_nat (i + 1).

Definition SubnetType_toString (t : SubnetType) : string :=
  match t with
  | PUBLIC => "Public"
  | PRIVATE_WITH_EGRESS => "Private"
  | PRIVATE_ISOLATED => "Isolated"
  end.

(** The subnets of a network of one type ([publicSubnets], [privateSubnets],
    [isolatedSubnets]), in creation order. *)
Definition subnetsOfType (vpc : Path) (t : SubnetType) (cs : list (Path * Construct)) : list Path :=
  flat_map (fun e =>
    match snd e with
    | CSubnet s =>
        if String.eqb (subnet_vpc s) vpc && SubnetType_eqb (subnet_type s) t
        then [fst e] else []
    | _ => []
    end) cs.

Definition determineNatGatewayCount (requestedCount : nat)
    (subnetConfig : list SubnetConfiguration) (azCount : nat) : string + nat :=
  let hasPrivateSubnets :=
    existsb (fun c => SubnetType_eqb (subnetType c) PRIVATE_WITH_EGRESS) subnetConfig in
  let hasPublicSubnets :=
    existsb (fun c => SubnetType_eqb (subnetType c) PUBLIC) subnetConfig in
  let hasCustomEgress :=
    existsb (fun c => SubnetType_eqb (subnetType c) PRIVATE_WITH_EGRESS) subnetConfig in
  let count := Nat.min requestedCount azCount in
  if Nat.eqb count 0 && hasPrivateSubnets && negb hasCustomEgress then
    inl "If you do not want NAT gateways (natGateways=0), make sure you don't configure any PRIVATE(_WITH_NAT) subnets in 'subnetConfiguration' (make them PRIVATE_ISOLATED instead)"
  else if Nat.ltb 0 count && negb hasPublicSubnets then
    inl "If you configure PRIVATE subnets in 'subnetConfiguration', you must also configure PUBLIC subnets to put the NAT gateways into"
  else inr count.

(** The subnets of one type, and an error where there are none; the message
    of the library goes on to list the types that do have subnets. *)
Definition selectSubnetObjectsByType (vpc : Path) (t : SubnetType) : M (list Path) :=
  s <- get ;;
  match subnetsOfType vpc t (constructs s) with
  | [] => raise ("There are no '" ++ SubnetType_toString t ++ "' subnet groups in this VPC")
  | subnets => ret subnets
  end.

(** [reifySelectionDefaults]: with no type asked for, the private subnets if
    there are any, else the isolated ones, else the public ones. *)
Definition reifySelectionDefaults (vpc : Path) (placement : SubnetSelection) : M SubnetType :=
  match sel_subnetType placement with
  | Some t => ret t
  | None =>
      s <- get ;;
      match subnetsOfType vpc PRIVATE_WITH_EGRESS (constructs s),
            subnetsOfType vpc PRIVATE_ISOLATED (constructs s) with
      | _ :: _, _ => ret PRIVATE_WITH_EGRESS
      | [], _ :: _ => ret PRIVATE_ISOLATED
      | [], [] => ret PUBLIC
      end
  end.

Definition selectSubnets (vpc : Path) (selection : SubnetSelection) : M (list Path) :=
  t <- reifySelectionDefaults vpc selection ;;
  selectSubnetObjectsByType vpc t.

(** [subnet.addRoute('DefaultRoute', ...)]. *)
Definition addDefaultRoute (subnet : Path) (r : Router) : M unit :=
  s <- getSubnet subnet ;;
  match subnet_defaultRoute s with
  | Some _ => raise ("There is already a Construct with name 'DefaultRoute' in " ++ subnet)
  | None =>
      setConstruct subnet (CSubnet
        {| subnet_vpc := subnet_vpc s; subnet_availabilityZone := subnet_availabilityZone s;
           subnet_type := subnet_type s; subnet_groupName := subnet_groupName s;
           subnet_defaultRoute := Some r |})
  end.

Definition createSubnets (vpc : Path) (v : Vpc) : M unit :=
  forEach (vpc_subnetConfiguration v) (fun configuration =>
    forEach (combine (seq 0 (length (vpc_availabilityZones v))) (vpc_availabilityZones v))
      (fun '(index, az) =>
        addConstruct (child vpc (subnetId (name configuration) index))
          (CSubnet {| subnet_vpc := vpc; subnet_availabilityZone := az;
                      subnet_type := subnetType configuration;
                      subnet_groupName := name configuration;
                      subnet_defaultRoute := None |}))).

(** The gateways of a NAT provider, by preferred zone. *)
Record PrefSet := {
  vals : list (AvailabilityZone * Path);
  next : nat;
}.

Definition PrefSet_add (pref : AvailabilityZone) (value : Path) (ps : PrefSet) : PrefSet :=
  {| vals := vals ps ++ [(pref, value)]; next := next ps |}.

Definition PrefSet_pick (pref : AvailabilityZone) (ps : PrefSet) : string + (Path * PrefSet) :=
  match vals ps with
  | [] => inl "Cannot pick, set is empty"
  | first :: _ =>
      match find (fun e => Nat.eqb (fst e) pref) (rev (vals ps)) with
      | Some e => inr (snd e, ps)
      | None =>
          inr (snd (nth (Nat.modulo (next ps) (length (vals ps))) (vals ps) first),
               {| vals := vals ps; next := S (next ps) |})
      end
  end.

Fixpoint addNatGateways (natSubnets : list Path) (gateways : PrefSet) : M PrefSet :=
  match natSubnets with
  | [] => ret gateways
  | sub :: rest =>
      s <- getSubnet sub ;;
      addConstruct (child sub "NATGateway") (CNatGateway sub) ;;
      addNatGateways rest (PrefSet_add (subnet_availabilityZone s) (child sub "NATGateway") gateways)
  end.

Fixpoint configureSubnets (privateSubnets : list Path) (gateways : PrefSet) : M unit :=
  match privateSubnets with
  | [] => ret tt
  | sub :: rest =>
      s <- getSubnet sub ;;
      match PrefSet_pick (subnet_availabilityZone s) gateways with
      | inl e => raise e
      | inr (gatewayId, gateways') =>
          addDefaultRoute sub (Router_NAT_GATEWAY gatewayId) ;;
          configureSubnets rest gateways'
      end
  end.

(** [NatProvider.gateway().configureNat]. *)
Definition configureNat (natSubnets privateSubnets : list Path) : M unit :=
  gateways <- addNatGateways natSubnets {| vals := []; next := 0 |} ;;
  configureSubnets privateSubnets gateways.

Definition createNatGateways (vpc : Path) (natCount : nat) : M unit :=
  natSubnets <- selectSubnets vpc {| sel_subnetType := Some PUBLIC |} ;;
  s <- get ;;
  configureNat (firstn natCount natSubnets)
               (subnetsOfType vpc PRIVATE_WITH_EGRESS (constructs s)).

(** [new ec2.Vpc(scope, id, props)]. *)
Definition Vpc_new (env : Environment) (scope : Path) (id : string) (props : VpcProps) : M Path :=
  let vpc := child scope id in
  let v := {| vpc_availabilityZones := firstn (maxAzs props) (Stack_availabilityZones env);
              vpc_subnetConfiguration := subnetConfiguration props |} in
  addConstruct vpc (CVpc v) ;;
  match determineNatGatewayCount (natGateways props) (subnetConfiguration props)
          (length (vpc_availabilityZones v)) with
  | inl e => raise e
  | inr natGatewayCount =>
      createSubnets vpc v ;;
      (if existsb (fun c => negb (SubnetType_eqb (subnetType c) PRIVATE_ISOLATED))
            (subnetConfiguration props)
       then
         addConstruct (child vpc "IGW") (CInternetGateway vpc) ;;
         s <- get ;;
         forEach (subnetsOfType vpc PUBLIC (constructs s))
           (fun publicSubnet => addDefaultRoute publicSubnet (Router_GATEWAY (child vpc "IGW"))) ;;
         (if Nat.ltb 0 natGatewayCount then createNatGateways vpc natGatewayCount else ret tt)
       else ret tt) ;;
      ret vpc
  end.

(** ** aws-ec2: security groups and connections *)

Record SecurityGroupProps := {
  sgp_vpc : Path;
  description : option string;
  allowAllOutbound : option bool;
}.

(** [new ec2.SecurityGroup(scope, id, props)]: outbound is allowed unless
    [allowAllOutbound] is [false]; the description defaults to the path of
    the group from the stack down, the id of the stack included. *)
Definition SecurityGroup_new (scope : Path) (id : string) (props : SecurityGroupProps) : M Path :=
  let sg := child scope id in
  let allowAll := match allowAllOutbound props with Some false => false | _ => true end in
  s <- get ;;
  addConstruct sg (CSecurityGroup
    {| sg_vpc := sgp_vpc props;
       sg_description :=
         match description props with Some d => d | None => stackId s ++ "/" ++ sg end;
       sg_allowAllOutbound := allowAll;
       sg_directIngressRules := [];
       sg_directEgressRules := if allowAll then [ALLOW_ALL_RULE] else [MATCH_NO_TRAFFIC] |}) ;;
  ret sg.

(** A rule whose peer is an address range is rendered inside the group; a
    rule whose peer is a security group becomes a resource of its own.
    Every rule of this stack is added with a description, so the optional
    [description] of the library is a plain string here. *)
Definition canInlineRule (peer : Peer) : bool :=
  match peer with Peer_ipv4 _ => true | Peer_securityGroup _ => false end.

Definition Peer_uniqueId (stack : string) (peer : Peer) : string :=
  match peer with Peer_ipv4 cidr => cidr | Peer_securityGroup sg => uniqueId stack sg end.

Definition setRules (sg : Path) (g : SecurityGroup) (ingress egress : list Rule) : M unit :=
  setConstruct sg (CSecurityGroup
    {| sg_vpc := sg_vpc g; sg_description := sg_description g;
       sg_allowAllOutbound := sg_allowAllOutbound g;
       sg_directIngressRules := ingress; sg_directEgressRules := egress |}).

Definition addIngressRule (sg : Path) (peer : Peer) (connection : Port)
    (description : string) (remoteRule : bool) : M unit :=
  let rule := {| rule_peer := peer; rule_port := connection; rule_description := description |} in
  if canInlineRule peer then
    g <- getSecurityGroup sg ;;
    if existsb (Rule_eqb rule) (sg_directIngressRules g) then ret tt
    else setRules sg g (sg_directIngressRules g ++ [rule]) (sg_directEgressRules g)
  else
    s <- get ;;
    let id := "from " ++ Peer_uniqueId (stackId s) peer ++ ":" ++ Port_toString connection in
    existing <- tryFindChild (child sg id) ;;
    match existing with
    | Some _ => ret tt
    | None => addConstruct (child sg id) (CSecurityGroupIngress sg rule)
    end.

Definition isAllTrafficRule (rule : Rule) : bool :=
  Peer_eqb (rule_peer rule) Peer_anyIpv4 && Port_eqb (rule_port rule) Port_allTraffic.

Definition addEgressRule (sg : Path) (peer : Peer) (connection : Port)
    (description : string) (remoteRule : bool) : M unit :=
  g <- getSecurityGroup sg ;;
  if sg_allowAllOutbound g then ret tt
  else
    let egress := filter (fun r => negb (Rule_eqb r MATCH_NO_TRAFFIC)) (sg_directEgressRules g) in
    setRules sg g (sg_directIngressRules g) egress ;;
    let rule := {| rule_peer := peer; rule_port := connection; rule_description := description |} in
    if canInlineRule peer then
      if isAllTrafficRule rule then
        raise "Cannot add an 'all traffic' egress rule in this way; set allowAllOutbound=true on the SecurityGroup instead."
      else if existsb (Rule_eqb rule) egress then ret tt
      else setRules sg g (sg_directIngressRules g) (egress ++ [rule])
    else
      s <- get ;;
      let id := "to " ++ Peer_uniqueId (stackId s) peer ++ ":" ++ Port_toString connection in
      existing <- tryFindChild (child sg id) ;;
      match existing with
      | Some _ => ret tt
      | None => addConstruct (child sg id) (CSecurityGroupEgress sg rule)
      end.

Definition Connections_ofSecurityGroups (sgs : list Path) : Connections :=
  {| conn_securityGroups := sgs; conn_securityGroupRules := map Peer_securityGroup sgs |}.

Definition Connections_ofPeer (peer : Peer) : Connections :=
  {| conn_securityGroups := []; conn_securityGroupRules := [peer] |}.

(** [this.connections.allowFrom(other, portRange, description)]: an ingress
    rule on every group of [this] for every peer of [other], then the
    mirrored egress rule on every group of [other], marked as remote. *)
Definition allowFrom (this other : Connections) (portRange : Port) (description : string) : M unit :=
  forEach (conn_securityGroups this) (fun securityGroup =>
    forEach (conn_securityGroupRules other) (fun rule =>
      addIngressRule securityGroup rule portRange description false)) ;;
  forEach (conn_securityGroups other) (fun securityGroup =>
    forEach (conn_securityGroupRules this) (fun rule =>
      addEgressRule securityGroup rule portRange description true)).

(** [this.connections.allowTo(other, portRange, description)]. *)
Definition allowTo (this other : Connections) (portRange : Port) (description : string) : M unit :=
  forEach (conn_securityGroups this) (fun securityGroup =>
    forEach (conn_securityGroupRules other) (fun rule =>
      addEgressRule securityGroup rule portRange description false)) ;;
  forEach (conn_securityGroups other) (fun securityGroup =>
    forEach (conn_securityGroupRules this) (fun rule =>
      addIngressRule securityGroup rule portRange description true)).

(** ** aws-ecr and aws-ecs *)

(** [ecr.Repository.fromRepositoryName(scope, id, name)]. *)
Definition Repository_fromRepositoryName (scope : Path) (id : string) (name : string) : M Repository :=
  let r := {| repositoryName := name |} in
  addConstruct (child scope id) (CRepository r) ;;
  ret r.

Definition ContainerImage_fromEcrRepository (repository : Repository) : ContainerImage :=
  {| image_repository := repository; image_tag := "latest" |}.

Definition LogDrivers_awsLogs (prefix : string) : AwsLogDriver := {| streamPrefix := prefix |}.

Record ClusterProps := { cp_vpc : Path }.

(** [new ecs.Cluster(scope, id, props)]. *)
Definition Cluster_new (scope : Path) (id : string) (props : ClusterProps) : M Path :=
  addConstruct (child scope id) (CCluster {| cluster_vpc := cp_vpc props |}) ;;
  ret (child scope id).

Record FargateTaskDefinitionProps := {
  tdp_memoryLimitMiB : Z;
  tdp_cpu : Z;
}.

(** [new ecs.FargateTaskDefinition(scope, id, props)]: Fargate tasks use the
    [awsvpc] network mode. *)
Definition FargateTaskDefinition_new (scope : Path) (id : string)
    (props : FargateTaskDefinitionProps) : M Path :=
  addConstruct (child scope id) (CTaskDefinition
    {| memoryLimitMiB := tdp_memoryLimitMiB props; cpu := tdp_cpu props;
       networkMode := NetworkMode_AWS_VPC; containers := []; defaultContainer := None |}) ;;
  ret (child scope id).

(** A container of the source is held through its task definition. *)
Record ContainerHandle := {
  ch_taskDefinition : Path;
  ch_containerName : string;
}.

Definition findContainer (containerName' : string) (t : TaskDefinition) : option ContainerDefinition :=
  find (fun c => String.eqb (containerName c) containerName') (containers t).

(** [taskDefinition.addContainer(id, props)]: the first essential container
    becomes the default container. *)
Definition addContainer (taskDefinition' : Path) (id : string)
    (props : ContainerDefinitionOptions) : M ContainerHandle :=
  t <- getTaskDefinition taskDefinition' ;;
  match findContainer id t with
  | Some _ => raise ("There is already a Construct with name '" ++ id ++ "'")
  | None =>
      let c := {| containerName := id; container_image := image props;
                  container_logging := logging props; essential := true;
                  portMappings := [] |} in
      setConstruct taskDefinition' (CTaskDefinition
        {| memoryLimitMiB := memoryLimitMiB t; cpu := cpu t; networkMode := networkMode t;
           containers := containers t ++ [c];
           defaultContainer :=
             match defaultContainer t with
             | Some d => Some d
             | None => if essential c then Some id else None
             end |}) ;;
      ret {| ch_taskDefinition := taskDefinition'; ch_containerName := id |}
  end.

(** [container.addPortMappings(pm)]: under [awsvpc] a host port, when given,
    has to be the container port. *)
Definition addPortMappings (container : ContainerHandle) (pm : PortMapping) : M unit :=
  t <- getTaskDefinition (ch_taskDefinition container) ;;
  match networkMode t, hostPort pm with
  | (NetworkMode_AWS_VPC | NetworkMode_HOST), Some h =>
      if Z.eqb h (containerPort pm) then ret tt
      else raise "Host port must be left out or equal to container port for this network mode"
  | _, _ => ret tt
  end ;;
  setConstruct (ch_taskDefinition container) (CTaskDefinition
    {| memoryLimitMiB := memoryLimitMiB t; cpu := cpu t; networkMode := networkMode t;
       containers :=
         map (fun c =>
           if String.eqb (containerName c) (ch_containerName container) then
             {| containerName := containerName c; container_image := container_image c;
                container_logging := container_logging c; essential := essential c;
                portMappings := portMappings c ++ [pm] |}
           else c) (containers t);
       defaultContainer := defaultContainer t |}).

(** [new ecs.FargateService(scope, id, props)], with
    [configureAwsVpcNetworkingWithSecurityGroups]: without [vpcSubnets] the
    public subnets are taken when a public IP is assigned. *)
Definition FargateService_new (scope : Path) (id : string) (props : FargateServiceProps) : M Path :=
  let service := child scope id in
  c <- getCluster (cluster props) ;;
  t <- getTaskDefinition (taskDefinition props) ;;
  let assignPublicIp' := match assignPublicIp props with Some true => true | _ => false end in
  let vpcSubnets' :=
    match vpcSubnets props with
    | Some sel => sel
    | None => if assignPublicIp' then {| sel_subnetType := Some PUBLIC |}
              else {| sel_subnetType := None |}
    end in
  securityGroups' <-
    match securityGroups props with
    | [] =>
        sg <- SecurityGroup_new service "SecurityGroup"
                {| sgp_vpc := cluster_vpc c; description := None; allowAllOutbound := None |} ;;
        ret [sg]
    | sgs => ret sgs
    end ;;
  subnets <- selectSubnets (cluster_vpc c) vpcSubnets' ;;
  match defaultContainer t with
  | None => raise "A TaskDefinition must have at least one essential container"
  | Some _ =>
      addConstruct service (CService
        {| svc_cluster := cluster props; svc_taskDefinition := taskDefinition props;
           svc_desiredCount := desiredCount props; svc_assignPublicIp := assignPublicIp';
           svc_subnets := subnets; svc_securityGroups := securityGroups';
           svc_loadBalancers := [] |}) ;;
      ret service
  end.

Definition Service_connections (service : Path) : M Connections :=
  s <- getService service ;;
  ret (Connections_ofSecurityGroups (svc_securityGroups s)).

(** [ContainerDefinition.findPortMapping]. *)
Definition findPortMapping (c : ContainerDefinition) (port : Z) (p : Protocol) : option PortMapping :=
  find (fun pm =>
    Z.eqb (containerPort pm) port
    && Protocol_eqb (match protocol pm with Some q => q | None => TCP end) p)
    (portMappings c).

(** [TaskDefinition._validateTarget] for the default target of a service:
    the default container and its first port mapping. *)
Definition validateDefaultTarget (t : TaskDefinition) : string + (string * PortMapping) :=
  match defaultContainer t with
  | None => inl "A TaskDefinition must have at least one essential container"
  | Some containerName' =>
      match findContainer containerName' t with
      | None => inl ("No container named '" ++ containerName' ++ "'. Did you call addContainer()?")
      | Some c =>
          match portMappings c with
          | [] => inl ("Container " ++ containerName' ++ " hasn't defined any ports. Call addPortMappings().")
          | defaultPortMapping :: _ =>
              match findPortMapping c (containerPort defaultPortMapping) TCP with
              | None => inl ("Container '" ++ containerName' ++ "' has no mapping for the port and protocol tcp. Did you call container.addPortMappings()?")
              | Some portMapping => inr (containerName', portMapping)
              end
          end
      end
  end.

Definition EPHEMERAL_PORT_RANGE : Port := Port_tcpRange 32768 65535.

(** [TaskDefinition._portRangeFromPortMapping]. *)
Definition portRangeFromPortMapping (t : TaskDefinition) (pm : PortMapping) : Port :=
  let of_protocol port :=
    match protocol pm with Some UDP => Port_udp port | _ => Port_tcp port end in
  match hostPort pm with
  | Some h => if Z.eqb h 0 then
                match networkMode t with
                | NetworkMode_BRIDGE => EPHEMERAL_PORT_RANGE
                | _ => of_protocol (containerPort pm)
                end
              else of_protocol h
  | None =>
      match networkMode t with
      | NetworkMode_BRIDGE => EPHEMERAL_PORT_RANGE
      | _ => of_protocol (containerPort pm)
      end
  end.

(** ** aws-elasticloadbalancingv2 *)

(** The load balancer as the source holds it: the construct and its
    attribute tokens. *)
Record ApplicationLoadBalancer := {
  alb_path : Path;
  loadBalancerDnsName : StringValue;
}.

(** [new elbv2.ApplicationLoadBalancer(scope, id, props)]: without
    [vpcSubnets] an internet-facing balancer takes the public subnets; its
    own security group allows no outbound traffic to start with. *)
Definition ApplicationLoadBalancer_new (scope : Path) (id : string)
    (props : ApplicationLoadBalancerProps) : M ApplicationLoadBalancer :=
  let lb := child scope id in
  let internetFacing' := match internetFacing props with Some b => b | None => false end in
  let vpcSubnets' :=
    match alb_vpcSubnets props with
    | Some sel => sel
    | None => if internetFacing' then {| sel_subnetType := Some PUBLIC |}
              else {| sel_subnetType := None |}
    end in
  subnets <- selectSubnets (alb_vpc props) vpcSubnets' ;;
  addConstruct lb (CLoadBalancer
    {| lb_vpc := alb_vpc props; lb_internetFacing := internetFacing';
       lb_subnets := subnets; lb_securityGroups := [child lb "SecurityGroup"] |}) ;;
  dnsName <- Token_asString (Fn_GetAtt lb "DNSName") ;;
  s <- get ;;
  _ <- SecurityGroup_new lb "SecurityGroup"
         {| sgp_vpc := alb_vpc props;
            description :=
              Some ("Automatically created Security Group for ELB " ++ uniqueId (stackId s) lb);
            allowAllOutbound := Some false |} ;;
  ret {| alb_path := lb; loadBalancerDnsName := dnsName |}.

Definition defaultProtocolForPort (port : Z) : string + ApplicationProtocol :=
  if Z.eqb port 80 || Z.eqb port 8000 || Z.eqb port 8008 || Z.eqb port 8080 then inr HTTP
  else if Z.eqb port 443 || Z.eqb port 8443 then inr HTTPS
  else inl ("Don't know default protocol for port: " ++ string_of_Z port ++ "; please supply a protocol").

Definition defaultPortForProtocol (proto : ApplicationProtocol) : Z :=
  match proto with HTTP => 80 | HTTPS => 443 end.

Definition determineProtocolAndPort (proto : option ApplicationProtocol) (port : option Z)
    : string + (option ApplicationProtocol * option Z) :=
  match proto, port with
  | None, None => inr (None, None)
  | None, Some p =>
      match defaultProtocolForPort p with
      | inl e => inl e
      | inr q => inr (Some q, Some p)
      end
  | Some q, None => inr (Some q, Some (defaultPortForProtocol q))
  | Some q, Some p => inr (Some q, Some p)
  end.

Record BaseApplicationListenerProps := {
  lp_protocol : option ApplicationProtocol;
  lp_port : option Z;
  lp_open : option bool;
}.

(** [lb.addListener(id, props)]: an open listener lets anyone in on its
    port, through the security group of the load balancer. *)
Definition addListener (lb : ApplicationLoadBalancer) (id : string)
    (props : BaseApplicationListenerProps) : M Path :=
  let listener := child (alb_path lb) id in
  match determineProtocolAndPort (lp_protocol props) (lp_port props) with
  | inl e => raise e
  | inr (Some proto, Some port) =>
      addConstruct listener (CListener
        {| listener_loadBalancer := alb_path lb; listener_port := port;
           listener_protocol := proto; listener_defaultAction := None |}) ;;
      l <- getLoadBalancer (alb_path lb) ;;
      match lp_open props with
      | Some false => ret tt
      | _ =>
          allowFrom (Connections_ofSecurityGroups (lb_securityGroups l))
            (Connections_ofPeer Peer_anyIpv4) (Port_tcp port)
            ("Allow from anyone on port " ++ string_of_Z port)
      end ;;
      ret listener
  | inr _ => raise "At least one of 'port' or 'protocol' is required"
  end.

(** [listener.registerConnectable(connectable, portRange)]. *)
Definition Listener_registerConnectable (listener connectable : Path) (portRange : Port) : M unit :=
  l <- getListener listener ;;
  lb <- getLoadBalancer (listener_loadBalancer l) ;;
  connections <- Service_connections connectable ;;
  allowFrom connections (Connections_ofSecurityGroups (lb_securityGroups lb))
    portRange "Load balancer to target".

Definition setTargetGroup (tg : Path) (g : TargetGroup) (targetType : option TargetType)
    (members : list (Path * Port)) (listeners : list Path) : M unit :=
  setConstruct tg (CTargetGroup
    {| tg_vpc := tg_vpc g; tg_port := tg_port g; tg_protocol := tg_protocol g;
       tg_targetType := targetType; tg_connectableMembers := members;
       tg_listeners := listeners |}).

(** [targetGroup.registerConnectable(connectable, portRange)]. *)
Definition TargetGroup_registerConnectable (tg connectable : Path) (portRange : Port) : M unit :=
  g <- getTargetGroup tg ;;
  setTargetGroup tg g (tg_targetType g) (tg_connectableMembers g ++ [(connectable, portRange)])
    (tg_listeners g) ;;
  forEach (tg_listeners g) (fun listener =>
    Listener_registerConnectable listener connectable portRange).

(** [service.attachToApplicationTargetGroup(targetGroup)]: the service is
    bound to the group under its default container and the container port
    of that container's first port mapping, and the load balancer is let in
    on that port. *)
Definition attachToApplicationTargetGroup (service tg : Path) : M TargetType :=
  s <- getService service ;;
  t <- getTaskDefinition (svc_taskDefinition s) ;;
  match validateDefaultTarget t with
  | inl e => raise e
  | inr (containerName', portMapping) =>
      TargetGroup_registerConnectable tg service (portRangeFromPortMapping t portMapping) ;;
      match networkMode t with
      | NetworkMode_NONE =>
          raise "Cannot use a load balancer if NetworkMode is None. Use Bridge, Host or AwsVpc instead."
      | mode =>
          setConstruct service (CService
            {| svc_cluster := svc_cluster s; svc_taskDefinition := svc_taskDefinition s;
               svc_desiredCount := svc_desiredCount s;
               svc_assignPublicIp := svc_assignPublicIp s;
               svc_subnets := svc_subnets s; svc_securityGroups := svc_securityGroups s;
               svc_loadBalancers := svc_loadBalancers s ++
                 [{| lbb_targetGroup := tg; lbb_containerName := containerName';
                     lbb_containerPort := containerPort portMapping |}] |}) ;;
          ret (match mode with NetworkMode_AWS_VPC => TargetType_IP | _ => TargetType_INSTANCE end)
      end
  end.

(** [targetGroup.addTarget(target)]. *)
Definition addTarget (tg target : Path) : M unit :=
  result <- attachToApplicationTargetGroup target tg ;;
  g <- getTargetGroup tg ;;
  match tg_targetType g with
  | Some existing =>
      if TargetType_eqb existing result then ret tt
      else raise "Already have a target of another type; make all targets the same type."
  | None => setTargetGroup tg g (Some result) (tg_connectableMembers g) (tg_listeners g)
  end.

(** [targetGroup.registerListener(listener)]. *)
Definition registerListener (tg listener : Path) : M unit :=
  g <- getTargetGroup tg ;;
  forEach (tg_connectableMembers g) (fun member =>
    Listener_registerConnectable listener (fst member) (snd member)) ;;
  g <- getTargetGroup tg ;;
  setTargetGroup tg g (tg_targetType g) (tg_connectableMembers g) (tg_listeners g ++ [listener]).

Record AddApplicationTargetsProps := {
  atp_protocol : option ApplicationProtocol;
  atp_port : option Z;
  targets : list Path;
}.

(** [listener.addTargets(id, props)]: a new target group [id + 'Group']
    with the given targets, made the default action of the listener. *)
Definition addTargets (listener : Path) (id : string) (props : AddApplicationTargetsProps) : M Path :=
  let group := child listener (id ++ "Group") in
  l <- getListener listener ;;
  lb <- getLoadBalancer (listener_loadBalancer l) ;;
  match determineProtocolAndPort (atp_protocol props) (atp_port props) with
  | inl e => raise e
  | inr (proto, port) =>
      addConstruct group (CTargetGroup
        {| tg_vpc := lb_vpc lb; tg_port := port; tg_protocol := proto;
           tg_targetType := None; tg_connectableMembers := []; tg_listeners := [] |}) ;;
      forEach (targets props) (addTarget group) ;;
      registerListener group listener ;;
      l <- getListener listener ;;
      setConstruct listener (CListener
        {| listener_loadBalancer := listener_loadBalancer l; listener_port := listener_port l;
           listener_protocol := listener_protocol l;
           listener_defaultAction := Some [group] |}) ;;
      ret group
  end.

(** ** core: outputs *)

(** [new cdk.CfnOutput(scope, id, { value })]. *)
Definition CfnOutput_new (scope : Path) (id : string) (value : StringValue) : M unit :=
  addConstruct (child scope id) (COutput value).

(** ** aws-rds *)

(** The database instance as the source holds it. *)
Record DatabaseInstanceHandle := {
  dbh_path : Path;
  dbInstanceEndpointAddress : StringValue;
  connections : Connections;
}.

Definition defaultDeletionProtection (deletionProtection' : option bool)
    (removalPolicy' : option RemovalPolicy) : option bool :=
  match deletionProtection' with
  | Some b => Some b
  | None => match removalPolicy' with Some RemovalPolicy_RETAIN => Some true | _ => None end
  end.

(** [new rds.DatabaseInstance(scope, id, props)]: a subnet group over the
    selected subnets, a security group of its own, a generated secret for
    the credentials, the instance, and the attachment of the secret. *)
Definition DatabaseInstance_new (scope : Path) (id : string)
    (props : DatabaseInstanceProps) : M DatabaseInstanceHandle :=
  let db := child scope id in
  let vpcPlacement :=
    match db_vpcSubnets props with
    | Some sel => sel
    | None => {| sel_subnetType := Some PRIVATE_WITH_EGRESS |}
    end in
  s <- get ;;
  match lookup db (constructs s) with
  | Some _ => raise ("There is already a Construct with name '" ++ db ++ "'")
  | None => ret tt
  end ;;
  subnets <- selectSubnets (db_vpc props) vpcPlacement ;;
  addConstruct (child db "SubnetGroup") (CSubnetGroup
    {| sng_description := "Subnet group for " ++ id ++ " database"; sng_subnets := subnets |}) ;;
  securityGroup <- SecurityGroup_new db "SecurityGroup"
    {| sgp_vpc := db_vpc props;
       description := Some ("Security group for " ++ id ++ " database");
       allowAllOutbound := None |} ;;
  let username := match credentials props with fromGeneratedSecret u => u end in
  addConstruct (child db "Secret") (CSecret
    {| secret_username := username; secret_generateStringKey := "password";
       secret_passwordLength := 30 |}) ;;
  addConstruct db (CDatabaseInstance
    {| dbi_engine := engine props;
       dbi_instanceClass := "db." ++ instanceType props;
       dbi_subnetGroup := child db "SubnetGroup";
       dbi_vpcSecurityGroups := [securityGroup];
       dbi_masterUsername := username;
       dbi_masterUserPasswordSecret := child db "Secret";
       dbi_multiAz := multiAz props;
       dbi_allocatedStorage := match allocatedStorage props with Some n => n | None => 100 end;
       dbi_maxAllocatedStorage := maxAllocatedStorage props;
       dbi_deletionProtection :=
         defaultDeletionProtection (deletionProtection props) (removalPolicy props);
       dbi_backupRetentionPeriod := option_map toDays (backupRetention props);
       dbi_deletionPolicy :=
         match removalPolicy props with Some p => p | None => RemovalPolicy_SNAPSHOT end |}) ;;
  endpointAddress <- Token_asString (Fn_GetAtt db "Endpoint.Address") ;;
  addConstruct (child (child db "Secret") "Attachment")
    (CSecretTargetAttachment (child db "Secret") db) ;;
  ret {| dbh_path := db; dbInstanceEndpointAddress := endpointAddress;
         connections := Connections_ofSecurityGroups [securityGroup] |}.

(** ** The stack of the repository *)

(** [super(scope, id, props)]: the stack takes its id.  Of the props only
    the environment, carried by the scope here, bears on the part of the
    template that is kept.  The library refuses an id that is no stack name
    (a letter, then letters, digits and hyphens); that check is not
    represented: for such an id the library throws where this goes on. *)
Definition Stack_new (id : string) : M unit :=
  s <- get ;;
  put {| stackId := id; constructs := constructs s;
         nextToken := nextToken s; tokens := tokens s |}.

(** The constructor of [InfraStack]: [this] is the root of the paths. *)
Definition InfraStack (scope : Environment) (id : string) : M unit :=
  let this : Path := "" in
  Stack_new id ;;
  (* VPC with both Public and Private Subnets *)
  vpc <- Vpc_new scope this "MyVpc"
    {| maxAzs := 2;
       natGateways := 1;
       subnetConfiguration :=
         [ {| cidrMask := 24; name := "publicSubnet"; subnetType := PUBLIC |};
           {| cidrMask := 24; name := "privateSubnet"; subnetType := PRIVATE_WITH_EGRESS |} ] |} ;;
  (* Security Group for ECS Tasks in Private Subnet *)
  ecsSecurityGroup <- SecurityGroup_new this "ECSSecurityGroup"
    {| sgp_vpc := vpc;
       description := Some "Allow internal traffic to ECS Service";
       allowAllOutbound := Some true |} ;;
  (* Reference to Existing ECR Repository *)
  repository <- Repository_fromRepositoryName this "MyRepository" "teju-ecr" ;;
  (* ECS Cluster *)
  cluster <- Cluster_new this "MyCluster" {| cp_vpc := vpc |} ;;
  (* Fargate Task Definition *)
  taskDefinition <- FargateTaskDefinition_new this "MyTaskDefinition"
    {| tdp_memoryLimitMiB := 512; tdp_cpu := 256 |} ;;
  (* Add container to the task definition *)
  container <- addContainer taskDefinition "MyContainer"
    {| image := ContainerImage_fromEcrRepository repository;
       logging := Some (LogDrivers_awsLogs "MyApp") |} ;;
  addPortMappings container
    {| containerPort := 5001; hostPort := None; protocol := Some TCP |} ;;
  (* Fargate Service in Private Subnet *)
  service <- FargateService_new this "MyService"
    {| cluster := cluster;
       taskDefinition := taskDefinition;
       securityGroups := [ecsSecurityGroup];
       assignPublicIp := Some false;
       desiredCount := Some 1%nat;
       vpcSubnets := Some {| sel_subnetType := Some PRIVATE_WITH_EGRESS |} |} ;;
  (* Application Load Balancer in Public Subnet *)
  lb <- ApplicationLoadBalancer_new this "MyALB"
    {| alb_vpc := vpc; internetFacing := Some true; alb_vpcSubnets := None |} ;;
  (* Add listener and forward traffic to Fargate Service *)
  listener <- addListener lb "MyListener"
    {| lp_protocol := None; lp_port := Some 80%Z; lp_open := None |} ;;
  _ <- addTargets listener "MyFargateService"
    {| atp_protocol := None; atp_port := Some 80%Z; targets := [service] |} ;;
  (* Output the DNS name of the Load Balancer *)
  CfnOutput_new this "LoadBalancerDNS" (loadBalancerDnsName lb) ;;
  (* Create an RDS database in the private subnet *)
  dbInstance <- DatabaseInstance_new this "MyDatabase"
    {| engine := DatabaseInstanceEngine_postgres VER_13_13;
       instanceType := InstanceType_of T3 MICRO;
       db_vpc := vpc;
       db_vpcSubnets := Some {| sel_subnetType := Some PRIVATE_WITH_EGRESS |};
       credentials := fromGeneratedSecret "myadmin";
       multiAz := Some false;
       allocatedStorage := Some 20%Z;
       maxAllocatedStorage := Some 100%Z;
       deletionProtection := Some false;
       backupRetention := Some (Duration_days 7);
       removalPolicy := None |} ;;
  (* Output the RDS instance endpoint *)
  CfnOutput_new this "DatabaseEndpoint" (dbInstanceEndpointAddress dbInstance) ;;
  (* Allow ECS Security Group to access RDS Database *)
  allowFrom (connections dbInstance) (Connections_ofSecurityGroups [ecsSecurityGroup])
    (Port_tcp 5432) "Allow inbound from ECS".

(** ** Synthesis *)

Record Template := {
  Resources : list (Path * Construct);
  Outputs : list (string * TemplateValue);
}.

(** The value a token key stands for; an unknown key is an error. *)
Definition resolve (table : list (nat * Intrinsic)) (v : StringValue) : string + TemplateValue :=
  match v with
  | Literal s => inr (TLiteral s)
  | TokenString key =>
      match find (fun e => token_eqb (fst e) key) table with
      | Some e => inr (TIntrinsic (snd e))
      | None => inl "Unrecognized token key"
      end
  end.

Definition isResource (c : Construct) : bool :=
  match c with COutput _ | CRepository _ => false | _ => true end.

Fixpoint resolveOutputs (table : list (nat * Intrinsic)) (cs : list (Path * Construct))
    : string + list (string * TemplateValue) :=
  match cs with
  | [] => inr []
  | (p, COutput v) :: rest =>
      match resolve table v, resolveOutputs table rest with
      | inr v', inr rest' => inr ((p, v') :: rest')
      | inl e, _ => inl e
      | _, inl e => inl e
      end
  | _ :: rest => resolveOutputs table rest
  end.

Definition synthesize (s : Stack) : string + Template :=
  match resolveOutputs (tokens s) (constructs s) with
  | inl e => inl e
  | inr outputs =>
      inr {| Resources := filter (fun e => isResource (snd e)) (constructs s);
             Outputs := outputs |}
  end.

(** A run starts with an empty tree; the token counter is wherever earlier
    work of the process left it. *)
Definition initialStack (counter : nat) : Stack :=
  {| stackId := ""; constructs := []; nextToken := counter; tokens := [] |}.

(** Instantiate the stack in an environment and synthesize its template. *)
Definition synth (env : Environment) (id : string) (counter : nat) : string + Template :=
  match runStateT (InfraStack env id) (initialStack counter) with
  | inl e => inl e
  | inr (_, s) => synthesize s
  end.


(** ** Reading a template *)

Definition select {A} (f : Construct -> option A) (t : Template) : list (Path * A) :=
  flat_map (fun e => match f (snd e) with Some a => [(fst e, a)] | None => [] end)
    (Resources t).

Definition vpcsOf : Template -> list (Path * Vpc) :=
  select (fun c => match c with CVpc v => Some v | _ => None end).
Definition subnetsOf : Template -> list (Path * Subnet) :=
  select (fun c => match c with CSubnet v => Some v | _ => None end).
Definition natGatewaysOf : Template -> list (Path * Path) :=
  select (fun c => match c with CNatGateway host => Some host | _ => None end).
Definition taskDefinitionsOf : Template -> list (Path * TaskDefinition) :=
  select (fun c => match c with CTaskDefinition v => Some v | _ => None end).
Definition servicesOf : Template -> list (Path * Service) :=
  select (fun c => match c with CService v => Some v | _ => None end).
Definition loadBalancersOf : Template -> list (Path * LoadBalancer) :=
  select (fun c => match c with CLoadBalancer v => Some v | _ => None end).
Definition listenersOf : Template -> list (Path * Listener) :=
  select (fun c => match c with CListener v => Some v | _ => None end).
Definition targetGroupsOf : Template -> list (Path * TargetGroup) :=
  select (fun c => match c with CTargetGroup v => Some v | _ => None end).
Definition databaseInstancesOf : Template -> list (Path * DatabaseInstance) :=
  select (fun c => match c with CDatabaseInstance v => Some v | _ => None end).

(** The inbound rules of a security group: those rendered inside the group
    and the ingress resources that name it. *)
Definition inboundRules (t : Template) (sg : Path) : list Rule :=
  match lookup sg (Resources t) with
  | Some (CSecurityGroup g) => sg_directIngressRules g
  | _ => []
  end ++
  flat_map (fun e =>
    match snd e with
    | CSecurityGroupIngress group r => if String.eqb group sg then [r] else []
    | _ => []
    end) (Resources t).

Definition outboundRules (t : Template) (sg : Path) : list Rule :=
  match lookup sg (Resources t) with
  | Some (CSecurityGroup g) => sg_directEgressRules g
  | _ => []
  end ++
  flat_map (fun e =>
    match snd e with
    | CSecurityGroupEgress group r => if String.eqb group sg then [r] else []
    | _ => []
    end) (Resources t).

Definition subnetTier (t : Template) (subnet : Path) : option SubnetType :=
  match lookup subnet (Resources t) with
  | Some (CSubnet s) => Some (subnet_type s)
  | _ => None
  end.

(** The subnets a service, a load balancer or a database instance (through
    its subnet group) is placed in. *)
Definition placement (t : Template) (p : Path) : list Path :=
  match lookup p (Resources t) with
  | Some (CService s) => svc_subnets s
  | Some (CLoadBalancer l) => lb_subnets l
  | Some (CDatabaseInstance d) =>
      match lookup (dbi_subnetGroup d) (Resources t) with
      | Some (CSubnetGroup g) => sng_subnets g
      | _ => []
      end
  | _ => []
  end.


(** The ports of the target groups the listeners forward to. *)
Definition forwardingPorts (t : Template) : list (option Z) :=
  flat_map (fun e =>
    match listener_defaultAction (snd e) with
    | Some groups =>
        flat_map (fun g =>
          match lookup g (Resources t) with
          | Some (CTargetGroup tg) => [tg_port tg]
          | _ => []
          end) groups
    | None => []
    end) (listenersOf t).

(** The container ports under which the services are bound to the target
    groups the listeners forward to: the ports the forwarding reaches on
    the services. *)
Definition boundContainerPorts (t : Template) : list Z :=
  flat_map (fun e =>
    match listener_defaultAction (snd e) with
    | Some groups =>
        flat_map (fun g =>
          flat_map (fun s =>
            flat_map (fun b =>
              if String.eqb (lbb_targetGroup b) g then [lbb_containerPort b] else [])
              (svc_loadBalancers (snd s)))
            (servicesOf t)) groups
    | None => []
    end) (listenersOf t).

(** The network of the template spans two zones. *)
Definition spansTwoZones (t : Template) : Prop :=
  exists p v, vpcsOf t = [(p, v)] /\ length (vpc_availabilityZones v) = 2.

(** The container ports the task definitions declare. *)
Definition declaredContainerPorts (t : Template) : list Z :=
  flat_map (fun e =>
    flat_map (fun c => map containerPort (portMappings c)) (containers (snd e)))
    (taskDefinitionsOf t).

Definition templateOf (r : string + Template) : Template :=
  match r with
  | inr t => t
  | inl _ => {| Resources := []; Outputs := [] |}
  end.

(** The template of the stack in an environment of one zone, and in one of
    two zones or more. *)
Definition oneZoneTemplate (id : string) : Template :=
  Eval vm_compute in templateOf (synth {| zoneCount := 1 |} id 0).

Definition twoZoneTemplate (id : string) : Template :=
  Eval vm_compute in templateOf (synth agnostic id 0).

(** ** Reading a template: the whole of it *)

Definition securityGroupsOf : Template -> list (Path * SecurityGroup) :=
  select (fun c => match c with CSecurityGroup v => Some v | _ => None end).
Definition clustersOf : Template -> list (Path * Cluster) :=
  select (fun c => match c with CCluster v => Some v | _ => None end).
Definition internetGatewaysOf : Template -> list (Path * Path) :=
  select (fun c => match c with CInternetGateway vpc => Some vpc | _ => None end).
Definition secretAttachmentsOf : Template -> list (Path * (Path * Path)) :=
  select (fun c => match c with
                   | CSecretTargetAttachment secret target => Some (secret, target)
                   | _ => None
                   end).

(** Every inbound rule of the template, with the group it is on. *)
Definition allInboundRules (t : Template) : list (Path * Rule) :=
  flat_map (fun e => map (pair (fst e)) (inboundRules t (fst e))) (securityGroupsOf t).

(** Every outbound rule of the template, with the group it is on. *)
Definition allOutboundRules (t : Template) : list (Path * Rule) :=
  flat_map (fun e => map (pair (fst e)) (outboundRules t (fst e))) (securityGroupsOf t).

(** The resource a reference names is in the template and of the kind the
    reference is to. *)
Definition refersTo (kind : Construct -> bool) (t : Template) (p : Path) : bool :=
  match lookup p (Resources t) with
  | Some c => kind c
  | None => false
  end.

Definition isVpc (c : Construct) : bool := match c with CVpc _ => true | _ => false end.
Definition isSubnet (c : Construct) : bool := match c with CSubnet _ => true | _ => false end.
Definition isInternetGateway (c : Construct) : bool :=
  match c with CInternetGateway _ => true | _ => false end.
Definition isNatGateway (c : Construct) : bool :=
  match c with CNatGateway _ => true | _ => false end.
Definition isSecurityGroup (c : Construct) : bool :=
  match c with CSecurityGroup _ => true | _ => false end.
Definition isCluster (c : Construct) : bool := match c with CCluster _ => true | _ => false end.
Definition isTaskDefinition (c : Construct) : bool :=
  match c with CTaskDefinition _ => true | _ => false end.
Definition isLoadBalancer (c : Construct) : bool :=
  match c with CLoadBalancer _ => true | _ => false end.
Definition isTargetGroup (c : Construct) : bool :=
  match c with CTargetGroup _ => true | _ => false end.
Definition isSubnetGroup (c : Construct) : bool :=
  match c with CSubnetGroup _ => true | _ => false end.
Definition isSecret (c : Construct) : bool := match c with CSecret _ => true | _ => false end.
Definition isDatabaseInstance (c : Construct) : bool :=
  match c with CDatabaseInstance _ => true | _ => false end.

Definition ruleResolves (t : Template) (r : Rule) : bool :=
  match rule_peer r with
  | Peer_ipv4 _ => true
  | Peer_securityGroup g => refersTo isSecurityGroup t g
  end.

Definition routeResolves (t : Template) (r : option Router) : bool :=
  match r with
  | None => true
  | Some (Router_GATEWAY g) => refersTo isInternetGateway t g
  | Some (Router_NAT_GATEWAY g) => refersTo isNatGateway t g
  end.

(** The container a service is bound under is a container of its task
    definition. *)
Definition bindingResolves (t : Template) (taskDefinition' : Path) (b : LoadBalancerBinding) : bool :=
  refersTo isTargetGroup t (lbb_targetGroup b) &&
  match lookup taskDefinition' (Resources t) with
  | Some (CTaskDefinition td) =>
      existsb (fun c => String.eqb (containerName c) (lbb_containerName b)) (containers td)
  | _ => false
  end.

(** Every reference a resource makes resolves. *)
Definition referencesResolve (t : Template) (c : Construct) : bool :=
  match c with
  | CVpc _ => true
  | CSubnet s => refersTo isVpc t (subnet_vpc s) && routeResolves t (subnet_defaultRoute s)
  | CInternetGateway vpc => refersTo isVpc t vpc
  | CNatGateway subnet => refersTo isSubnet t subnet
  | CSecurityGroup g =>
      refersTo isVpc t (sg_vpc g) &&
      forallb (ruleResolves t) (sg_directIngressRules g) &&
      forallb (ruleResolves t) (sg_directEgressRules g)
  | CSecurityGroupIngress group r => refersTo isSecurityGroup t group && ruleResolves t r
  | CSecurityGroupEgress group r => refersTo isSecurityGroup t group && ruleResolves t r
  | CRepository _ => true
  | CCluster cl => refersTo isVpc t (cluster_vpc cl)
  | CTaskDefinition _ => true
  | CService s =>
      refersTo isCluster t (svc_cluster s) &&
      refersTo isTaskDefinition t (svc_taskDefinition s) &&
      forallb (refersTo isSubnet t) (svc_subnets s) &&
      forallb (refersTo isSecurityGroup t) (svc_securityGroups s) &&
      forallb (bindingResolves t (svc_taskDefinition s)) (svc_loadBalancers s)
  | CLoadBalancer l =>
      refersTo isVpc t (lb_vpc l) &&
      forallb (refersTo isSubnet t) (lb_subnets l) &&
      forallb (refersTo isSecurityGroup t) (lb_securityGroups l)
  | CListener l =>
      refersTo isLoadBalancer t (listener_loadBalancer l) &&
      match listener_defaultAction l with
      | Some groups => forallb (refersTo isTargetGroup t) groups
      | None => true
      end
  | CTargetGroup g => refersTo isVpc t (tg_vpc g)
  | CSubnetGroup g => forallb (refersTo isSubnet t) (sng_subnets g)
  | CSecret _ => true
  | CSecretTargetAttachment secret target =>
      refersTo isSecret t secret && refersTo isDatabaseInstance t target
  | CDatabaseInstance d =>
      refersTo isSubnetGroup t (dbi_subnetGroup d) &&
      forallb (refersTo isSecurityGroup t) (dbi_vpcSecurityGroups d) &&
      refersTo isSecret t (dbi_masterUserPasswordSecret d)
  | COutput _ => true
  end.

(** An output reads an attribute from a resource that has it: the DNS name
    of a load balancer, the endpoint address of a database instance. *)
Definition outputResolves (t : Template) (v : TemplateValue) : bool :=
  match v with
  | TLiteral _ => true
  | TIntrinsic (Fn_GetAtt p attribute) =>
      if String.eqb attribute "DNSName" then refersTo isLoadBalancer t p
      else if String.eqb attribute "Endpoint.Address" then refersTo isDatabaseInstance t p
      else false
  end.

Definition wellReferenced (t : Template) : bool :=
  forallb (fun e => referencesResolve t (snd e)) (Resources t) &&
  forallb (fun o => outputResolves t (snd o)) (Outputs t).

(** The default route a subnet of the stack is to have: the internet
    gateway for a public subnet, the given NAT gateway for a private one. *)
Definition expectedRoute (natGateway : Path) (s : Subnet) : option Router :=
  match subnet_type s with
  | PUBLIC => Some (Router_GATEWAY "MyVpc/IGW")
  | PRIVATE_WITH_EGRESS => Some (Router_NAT_GATEWAY natGateway)
  | PRIVATE_ISOLATED => None
  end.

(** ** The operations on small inputs *)

Example child_of_root : child "" "MyVpc" = "MyVpc".
Proof. reflexivity. Qed.

Example child_of_construct : child "MyALB" "SecurityGroup" = "MyALB/SecurityGroup".
Proof. reflexivity. Qed.

Example uniqueId_of_group : uniqueId "InfraStack" "MyALB/SecurityGroup" = "InfraStackMyALBSecurityGroup".
Proof. reflexivity. Qed.

Example subnetId_second : subnetId "publicSubnet" 1 = "publicSubnetSubnet2".
Proof. reflexivity. Qed.

Example protocol_of_port_80 : determineProtocolAndPort None (Some 80%Z) = inr (Some HTTP, Some 80%Z).
Proof. reflexivity. Qed.

Example protocol_of_port_5001 :
  determineProtocolAndPort None (Some 5001%Z) =
  inl "Don't know default protocol for port: 5001; please supply a protocol".
Proof. reflexivity. Qed.

Example one_gateway_for_two_zones :
  determineNatGatewayCount 1
    [ {| cidrMask := 24; name := "publicSubnet"; subnetType := PUBLIC |};
      {| cidrMask := 24; name := "privateSubnet"; subnetType := PRIVATE_WITH_EGRESS |} ] 2
  = inr 1.
Proof. reflexivity. Qed.

(** A zone without a gateway of its own is served round-robin. *)
Example pick_for_other_zone :
  PrefSet_pick 1 {| vals := [(0, "gw")]; next := 0 |}
  = inr ("gw", {| vals := [(0, "gw")]; next := 1 |}).
Proof. reflexivity. Qed.

Example pick_for_own_zone :
  PrefSet_pick 0 {| vals := [(0, "gw")]; next := 0 |}
  = inr ("gw", {| vals := [(0, "gw")]; next := 0 |}).
Proof. reflexivity. Qed.

(** A second construct of one name is refused. *)
Example duplicate_construct :
  runStateT (CfnOutput_new "" "Out" (Literal "a") ;; CfnOutput_new "" "Out" (Literal "b"))
            (initialStack 0)
  = inl "There is already a Construct with name 'Out'".
Proof. reflexivity. Qed.

(** An egress rule added to a group that allows all outbound traffic is
    dropped. *)
Example egress_ignored_when_all_allowed :
  runStateT
    (Stack_new "S" ;;
     sg <- SecurityGroup_new "" "A" {| sgp_vpc := "V"; description := None; allowAllOutbound := None |} ;;
     addEgressRule sg (Peer_securityGroup "B") (Port_tcp 5432) "x" true ;;
     g <- getSecurityGroup sg ;;
     s <- get ;;
     ret (sg_directEgressRules g, length (constructs s)))
    (initialStack 0)
  = inr (([ALLOW_ALL_RULE], 1),
         {| stackId := "S";
            constructs :=
              [("A", CSecurityGroup
                 {| sg_vpc := "V"; sg_description := "S/A"; sg_allowAllOutbound := true;
                    sg_directIngressRules := []; sg_directEgressRules := [ALLOW_ALL_RULE] |})];
            nextToken := 0; tokens := [] |}).
Proof. reflexivity. Qed.

(** A second inline rule of the same peer and port is dropped, whatever its
    description. *)
Example inline_rule_not_repeated :
  runStateT
    (sg <- SecurityGroup_new "" "A"
             {| sgp_vpc := "V"; description := Some "a"; allowAllOutbound := None |} ;;
     addIngressRule sg Peer_anyIpv4 (Port_tcp 80) "first" false ;;
     addIngressRule sg Peer_anyIpv4 (Port_tcp 80) "second" false ;;
     g <- getSecurityGroup sg ;;
     ret (sg_directIngressRules g))
    (initialStack 0)
  = inr ([ {| rule_peer := Peer_anyIpv4; rule_port := Port_tcp 80;
              rule_description := "first" |} ],
         {| stackId := "";
            constructs :=
              [("A", CSecurityGroup
                 {| sg_vpc := "V"; sg_description := "a"; sg_allowAllOutbound := true;
                    sg_directIngressRules :=
                      [ {| rule_peer := Peer_anyIpv4; rule_port := Port_tcp 80;
                           rule_description := "first" |} ];
                    sg_directEgressRules := [ALLOW_ALL_RULE] |})];
            nextToken := 0; tokens := [] |}).
Proof. reflexivity. Qed.

(** ** Runs of the constructor *)

Lemma token_eqb_refl n : token_eqb n n = true.
Proof. apply Nat.eqb_refl. Qed.

Lemma token_eqb_succ n : token_eqb (S n) n = false.
Proof. apply Nat.eqb_neq. lia. Qed.

(** The network takes the first two zones, whatever else there is. *)
Lemma InfraStack_zones k id :
  InfraStack {| zoneCount := S (S k) |} id = InfraStack agnostic id.
Proof. reflexivity. Qed.

Lemma synth_zones k id n :
  synth {| zoneCount := S (S k) |} id n = synth agnostic id n.
Proof. unfold synth. rewrite InfraStack_zones. reflexivity. Qed.

Ltac run_with_counter :=
  cbv -[token_eqb uniqueId];
  rewrite ?token_eqb_refl, ?token_eqb_succ; reflexivity.

Lemma synth_counter_agnostic id n : synth agnostic id n = synth agnostic id 0.
Proof. run_with_counter. Qed.

Lemma synth_counter_one_zone id n :
  synth {| zoneCount := 1 |} id n = synth {| zoneCount := 1 |} id 0.
Proof. run_with_counter. Qed.

Lemma synth_counter_no_zone id n :
  synth {| zoneCount := 0 |} id n = synth {| zoneCount := 0 |} id 0.
Proof. run_with_counter. Qed.

(** The token keys of a run do not reach the template. *)
Lemma synth_counter env id n : synth env id n = synth env id 0.
Proof.
  destruct env as [[|[|k]]].
  - apply synth_counter_no_zone.
  - apply synth_counter_one_zone.
  - rewrite !synth_zones. apply synth_counter_agnostic.
Qed.

Lemma synth_one_zone env id n :
  zoneCount env = 1 -> synth env id n = inr (oneZoneTemplate id).
Proof.
  destruct env as [z]; simpl; intros ->.
  rewrite synth_counter. vm_compute. reflexivity.
Qed.

Lemma synth_two_zones env id n :
  2 <= zoneCount env -> synth env id n = inr (twoZoneTemplate id).
Proof.
  destruct env as [[|[|k]]]; simpl; intros H; try lia.
  rewrite synth_zones, synth_counter. vm_compute. reflexivity.
Qed.

Lemma synth_some_zone env id n :
  zoneCount env <> 0 ->
  synth env id n = inr (oneZoneTemplate id) \/ synth env id n = inr (twoZoneTemplate id).
Proof.
  intros H. destruct (Nat.eq_dec (zoneCount env) 1) as [E | E].
  - left. now apply synth_one_zone.
  - right. apply synth_two_zones. lia.
Qed.


Ltac settle :=
  repeat match goal with
         | |- _ /\ _ => split
         | |- exists _, _ => eexists
         | |- Forall _ _ => constructor
         | |- _ <> _ => discriminate
         | |- _ = _ -> False => discriminate
         | |- _ = _ => reflexivity
         end.

(** A statement about the template of every environment with a zone is a
    statement about two templates, settled by evaluation. *)
Ltac on_each_template H :=
  match goal with
  | |- context [synth ?env ?id ?n] =>
      match type of H with
      | 2 <= _ => rewrite (synth_two_zones env id n H); exists (twoZoneTemplate id)
      | _ => destruct (synth_some_zone env id n H) as [E | E]; rewrite E; clear E;
             [exists (oneZoneTemplate id) | exists (twoZoneTemplate id)]
      end
  end;
  (split; [reflexivity |]); vm_compute; settle.

(** ** The claims *)

(** C1. In the synthesized template the database instance is protected by
    one security group, and that group has exactly one inbound rule: TCP
    5432 from the security group of the compute tasks. *)
Theorem database_inbound_only_from_compute env id counter :
  zoneCount env <> 0 ->
  exists t,
    synth env id counter = inr t /\
    exists d s,
      databaseInstancesOf t = [("MyDatabase", d)] /\
      servicesOf t = [("MyService", s)] /\
      dbi_vpcSecurityGroups d = ["MyDatabase/SecurityGroup"] /\
      svc_securityGroups s = ["ECSSecurityGroup"] /\
      inboundRules t "MyDatabase/SecurityGroup" =
        [ {| rule_peer := Peer_securityGroup "ECSSecurityGroup";
             rule_port := Port_tcp 5432;
             rule_description := "Allow inbound from ECS" |} ].
Proof. intros H. on_each_template H. Qed.

Lemma database_inbound_only_from_compute_witness :
  zoneCount agnostic <> 0 /\
  exists t,
    synth agnostic "InfraStack" 0 = inr t /\
    exists d s,
      databaseInstancesOf t = [("MyDatabase", d)] /\
      servicesOf t = [("MyService", s)] /\
      dbi_vpcSecurityGroups d = ["MyDatabase/SecurityGroup"] /\
      svc_securityGroups s = ["ECSSecurityGroup"] /\
      inboundRules t "MyDatabase/SecurityGroup" =
        [ {| rule_peer := Peer_securityGroup "ECSSecurityGroup";
             rule_port := Port_tcp 5432;
             rule_description := "Allow inbound from ECS" |} ].
Proof.
  split; [simpl; lia |].
  apply (database_inbound_only_from_compute agnostic "InfraStack" 0); simpl; lia.
Defined.



(** C3. The security group attached to the compute tasks permits all
    outbound traffic, and permits inbound traffic from the security group of
    the load balancer, on the container port of the service; the load
    balancer is in turn allowed out to the tasks on that port. *)
Theorem compute_group_rules env id counter :
  zoneCount env <> 0 ->
  exists t,
    synth env id counter = inr t /\
    exists s l,
      servicesOf t = [("MyService", s)] /\
      loadBalancersOf t = [("MyALB", l)] /\
      svc_securityGroups s = ["ECSSecurityGroup"] /\
      lb_securityGroups l = ["MyALB/SecurityGroup"] /\
      outboundRules t "ECSSecurityGroup" = [ALLOW_ALL_RULE] /\
      inboundRules t "ECSSecurityGroup" =
        [ {| rule_peer := Peer_securityGroup "MyALB/SecurityGroup";
             rule_port := Port_tcp 5001;
             rule_description := "Load balancer to target" |} ] /\
      outboundRules t "MyALB/SecurityGroup" =
        [ {| rule_peer := Peer_securityGroup "ECSSecurityGroup";
             rule_port := Port_tcp 5001;
             rule_description := "Load balancer to target" |} ].
Proof. intros H. on_each_template H. Qed.

Lemma compute_group_rules_witness :
  zoneCount agnostic <> 0 /\
  exists t,
    synth agnostic "InfraStack" 0 = inr t /\
    exists s l,
      servicesOf t = [("MyService", s)] /\
      loadBalancersOf t = [("MyALB", l)] /\
      svc_securityGroups s = ["ECSSecurityGroup"] /\
      lb_securityGroups l = ["MyALB/SecurityGroup"] /\
      outboundRules t "ECSSecurityGroup" = [ALLOW_ALL_RULE] /\
      inboundRules t "ECSSecurityGroup" =
        [ {| rule_peer := Peer_securityGroup "MyALB/SecurityGroup";
             rule_port := Port_tcp 5001;
             rule_description := "Load balancer to target" |} ] /\
      outboundRules t "MyALB/SecurityGroup" =
        [ {| rule_peer := Peer_securityGroup "ECSSecurityGroup";
             rule_port := Port_tcp 5001;
             rule_description := "Load balancer to target" |} ].
Proof.
  split; [simpl; lia |].
  apply (compute_group_rules agnostic "InfraStack" 0); simpl; lia.
Defined.

(** C4 as stated fails where the environment offers one zone only: the
    network then spans that zone, not two. *)
Lemma network_of_one_zone_environment :
  exists t,
    synth {| zoneCount := 1 |} "InfraStack" 0 = inr t /\
    map (fun e => vpc_availabilityZones (snd e)) (vpcsOf t) = [[0]] /\
    length (subnetsOf t) = 2 /\
    ~ spansTwoZones t.
Proof.
  exists (oneZoneTemplate "InfraStack").
  split; [apply synth_one_zone; reflexivity |].
  split; [reflexivity |]. split; [reflexivity |].
  intros [p [v [E L]]]. vm_compute in E.
  injection E as _ Ev. subst v. discriminate L.
Qed.

(** C4, amended. Where the environment offers two zones or more, the synthesized
    template has exactly one virtual network, over two zones, with one
    public and one private-with-egress subnet in each zone and no other
    subnet, and exactly one NAT gateway, which sits in a public subnet and
    is the default route of every private subnet. *)
Theorem network_shape env id counter :
  2 <= zoneCount env ->
  exists t,
    synth env id counter = inr t /\
    exists v gateway host,
      vpcsOf t = [("MyVpc", v)] /\
      vpc_availabilityZones v = [0; 1] /\
      map (fun e => (subnet_vpc (snd e), subnet_availabilityZone (snd e), subnet_type (snd e)))
          (subnetsOf t) =
        [ ("MyVpc", 0, PUBLIC); ("MyVpc", 1, PUBLIC);
          ("MyVpc", 0, PRIVATE_WITH_EGRESS); ("MyVpc", 1, PRIVATE_WITH_EGRESS) ] /\
      natGatewaysOf t = [(gateway, host)] /\
      subnetTier t host = Some PUBLIC /\
      map (fun e => subnet_defaultRoute (snd e))
          (filter (fun e => SubnetType_eqb (subnet_type (snd e)) PRIVATE_WITH_EGRESS)
                  (subnetsOf t)) =
        [ Some (Router_NAT_GATEWAY gateway); Some (Router_NAT_GATEWAY gateway) ].
Proof. intros H. on_each_template H. Qed.

Lemma network_shape_witness :
  2 <= zoneCount agnostic /\
  exists t,
    synth agnostic "InfraStack" 0 = inr t /\
    exists v gateway host,
      vpcsOf t = [("MyVpc", v)] /\
      vpc_availabilityZones v = [0; 1] /\
      map (fun e => (subnet_vpc (snd e), subnet_availabilityZone (snd e), subnet_type (snd e)))
          (subnetsOf t) =
        [ ("MyVpc", 0, PUBLIC); ("MyVpc", 1, PUBLIC);
          ("MyVpc", 0, PRIVATE_WITH_EGRESS); ("MyVpc", 1, PRIVATE_WITH_EGRESS) ] /\
      natGatewaysOf t = [(gateway, host)] /\
      subnetTier t host = Some PUBLIC /\
      map (fun e => subnet_defaultRoute (snd e))
          (filter (fun e => SubnetType_eqb (subnet_type (snd e)) PRIVATE_WITH_EGRESS)
                  (subnetsOf t)) =
        [ Some (Router_NAT_GATEWAY gateway); Some (Router_NAT_GATEWAY gateway) ].
Proof.
  split; [simpl; lia |].
  apply (network_shape agnostic "InfraStack" 0); simpl; lia.
Defined.

(** C5. The port the forwarding rule of the load balancer reaches on the
    service is the port the container declares in the task definition: the
    service is bound to the target group the listener forwards to under its
    container and that container's port mapping, 5001.  (The port property
    of the target group itself, which the binding overrides for the tasks
    of the service, is the 80 given to [addTargets].) *)
Theorem service_bound_on_container_port env id counter :
  zoneCount env <> 0 ->
  exists t,
    synth env id counter = inr t /\
    exists s td c l,
      servicesOf t = [("MyService", s)] /\
      taskDefinitionsOf t = [("MyTaskDefinition", td)] /\
      listenersOf t = [("MyALB/MyListener", l)] /\
      svc_taskDefinition s = "MyTaskDefinition" /\
      containers td = [c] /\
      listener_defaultAction l = Some ["MyALB/MyListener/MyFargateServiceGroup"] /\
      svc_loadBalancers s =
        [ {| lbb_targetGroup := "MyALB/MyListener/MyFargateServiceGroup";
             lbb_containerName := containerName c;
             lbb_containerPort := 5001 |} ] /\
      map containerPort (portMappings c) = [5001%Z] /\
      forwardingPorts t = [Some 80%Z] /\
      boundContainerPorts t = declaredContainerPorts t /\
      declaredContainerPorts t = [5001%Z].
Proof. intros H. on_each_template H. Qed.

Lemma service_bound_on_container_port_witness :
  zoneCount agnostic <> 0 /\
  exists t,
    synth agnostic "InfraStack" 0 = inr t /\
    exists s td c l,
      servicesOf t = [("MyService", s)] /\
      taskDefinitionsOf t = [("MyTaskDefinition", td)] /\
      listenersOf t = [("MyALB/MyListener", l)] /\
      svc_taskDefinition s = "MyTaskDefinition" /\
      containers td = [c] /\
      listener_defaultAction l = Some ["MyALB/MyListener/MyFargateServiceGroup"] /\
      svc_loadBalancers s =
        [ {| lbb_targetGroup := "MyALB/MyListener/MyFargateServiceGroup";
             lbb_containerName := containerName c;
             lbb_containerPort := 5001 |} ] /\
      map containerPort (portMappings c) = [5001%Z] /\
      forwardingPorts t = [Some 80%Z] /\
      boundContainerPorts t = declaredContainerPorts t /\
      declaredContainerPorts t = [5001%Z].
Proof.
  split; [simpl; lia |].
  apply (service_bound_on_container_port agnostic "InfraStack" 0); simpl; lia.
Defined.

(** C6. Two synthesis runs of the stack under one id in one environment
    produce the same result, whatever token keys each run hands out. *)
Theorem synthesis_deterministic env id counter counter' :
  synth env id counter = synth env id counter'.
Proof.
  rewrite (synth_counter env id counter), (synth_counter env id counter').
  reflexivity.
Qed.


(** C7. The synthesized template declares exactly one database instance; it
    is not multi-AZ, its admin user [myadmin] takes its password from a
    secret the provider generates, its storage scales from 20 GiB up to 100
    GiB, and its backups are kept 7 days. *)
Theorem single_database_instance env id counter :
  zoneCount env <> 0 ->
  exists t,
    synth env id counter = inr t /\
    exists d,
      databaseInstancesOf t = [("MyDatabase", d)] /\
      dbi_multiAz d = Some false /\
      dbi_masterUsername d = "myadmin" /\
      lookup (dbi_masterUserPasswordSecret d) (Resources t) =
        Some (CSecret {| secret_username := "myadmin";
                         secret_generateStringKey := "password";
                         secret_passwordLength := 30 |}) /\
      dbi_allocatedStorage d = 20%Z /\
      dbi_maxAllocatedStorage d = Some 100%Z /\
      dbi_backupRetentionPeriod d = Some 7%Z.
Proof. intros H. on_each_template H. Qed.

Lemma single_database_instance_witness :
  zoneCount agnostic <> 0 /\
  exists t,
    synth agnostic "InfraStack" 0 = inr t /\
    exists d,
      databaseInstancesOf t = [("MyDatabase", d)] /\
      dbi_multiAz d = Some false /\
      dbi_masterUsername d = "myadmin" /\
      lookup (dbi_masterUserPasswordSecret d) (Resources t) =
        Some (CSecret {| secret_username := "myadmin";
                         secret_generateStringKey := "password";
                         secret_passwordLength := 30 |}) /\
      dbi_allocatedStorage d = 20%Z /\
      dbi_maxAllocatedStorage d = Some 100%Z /\
      dbi_backupRetentionPeriod d = Some 7%Z.
Proof.
  split; [simpl; lia |].
  apply (single_database_instance agnostic "InfraStack" 0); simpl; lia.
Defined.

(** C8. The synthesized template has exactly two outputs: the DNS name of
    the load balancer, which is internet-facing, and the endpoint address of
    the database instance. *)
Theorem two_outputs env id counter :
  zoneCount env <> 0 ->
  exists t,
    synth env id counter = inr t /\
    exists l d,
      loadBalancersOf t = [("MyALB", l)] /\
      databaseInstancesOf t = [("MyDatabase", d)] /\
      lb_internetFacing l = true /\
      Outputs t =
        [ ("LoadBalancerDNS", TIntrinsic (Fn_GetAtt "MyALB" "DNSName"));
          ("DatabaseEndpoint", TIntrinsic (Fn_GetAtt "MyDatabase" "Endpoint.Address")) ].
Proof. intros H. on_each_template H. Qed.

Lemma two_outputs_witness :
  zoneCount agnostic <> 0 /\
  exists t,
    synth agnostic "InfraStack" 0 = inr t /\
    exists l d,
      loadBalancersOf t = [("MyALB", l)] /\
      databaseInstancesOf t = [("MyDatabase", d)] /\
      lb_internetFacing l = true /\
      Outputs t =
        [ ("LoadBalancerDNS", TIntrinsic (Fn_GetAtt "MyALB" "DNSName"));
          ("DatabaseEndpoint", TIntrinsic (Fn_GetAtt "MyDatabase" "Endpoint.Address")) ].
Proof.
  split; [simpl; lia |].
  apply (two_outputs agnostic "InfraStack" 0); simpl; lia.
Defined.

(** C9. The one service of the template assigns no public IP address to its
    tasks. *)
Theorem tasks_without_public_ip env id counter :
  zoneCount env <> 0 ->
  exists t,
    synth env id counter = inr t /\
    exists s,
      servicesOf t = [("MyService", s)] /\
      svc_assignPublicIp s = false.
Proof. intros H. on_each_template H. Qed.

Lemma tasks_without_public_ip_witness :
  zoneCount agnostic <> 0 /\
  exists t,
    synth agnostic "InfraStack" 0 = inr t /\
    exists s,
      servicesOf t = [("MyService", s)] /\
      svc_assignPublicIp s = false.
Proof.
  split; [simpl; lia |].
  apply (tasks_without_public_ip agnostic "InfraStack" 0); simpl; lia.
Defined.

(** C10. The database instance is declared with deletion protection
    disabled, and its deletion policy is to snapshot and delete, not to
    retain: deleting the stack deletes the instance. *)
Theorem database_deletable env id counter :
  zoneCount env <> 0 ->
  exists t,
    synth env id counter = inr t /\
    exists d,
      databaseInstancesOf t = [("MyDatabase", d)] /\
      dbi_deletionProtection d = Some false /\
      dbi_deletionPolicy d = RemovalPolicy_SNAPSHOT.
Proof. intros H. on_each_template H. Qed.

Lemma database_deletable_witness :
  zoneCount agnostic <> 0 /\
  exists t,
    synth agnostic "InfraStack" 0 = inr t /\
    exists d,
      databaseInstancesOf t = [("MyDatabase", d)] /\
      dbi_deletionProtection d = Some false /\
      dbi_deletionPolicy d = RemovalPolicy_SNAPSHOT.
Proof.
  split; [simpl; lia |].
  apply (database_deletable agnostic "InfraStack" 0); simpl; lia.
Defined.

(** ** Further properties of the stack *)

(** X1. The inbound rules of the template, over all its security groups, are
    three: the compute group lets the load balancer in on TCP 5001, the
    load balancer's group lets any IPv4 address in on TCP 80, the database
    group lets the compute group in on TCP 5432.  No group but the load
    balancer's admits an address range. *)
Theorem inbound_rules_complete env id counter :
  zoneCount env <> 0 ->
  exists t,
    synth env id counter = inr t /\
    allInboundRules t =
      [ ("ECSSecurityGroup",
         {| rule_peer := Peer_securityGroup "MyALB/SecurityGroup";
            rule_port := Port_tcp 5001;
            rule_description := "Load balancer to target" |});
        ("MyALB/SecurityGroup",
         {| rule_peer := Peer_anyIpv4;
            rule_port := Port_tcp 80;
            rule_description := "Allow from anyone on port 80" |});
        ("MyDatabase/SecurityGroup",
         {| rule_peer := Peer_securityGroup "ECSSecurityGroup";
            rule_port := Port_tcp 5432;
            rule_description := "Allow inbound from ECS" |}) ].
Proof. intros H. on_each_template H. Qed.

Lemma inbound_rules_complete_witness :
  zoneCount agnostic <> 0 /\
  exists t,
    synth agnostic "InfraStack" 0 = inr t /\
    allInboundRules t =
      [ ("ECSSecurityGroup",
         {| rule_peer := Peer_securityGroup "MyALB/SecurityGroup";
            rule_port := Port_tcp 5001;
            rule_description := "Load balancer to target" |});
        ("MyALB/SecurityGroup",
         {| rule_peer := Peer_anyIpv4;
            rule_port := Port_tcp 80;
            rule_description := "Allow from anyone on port 80" |});
        ("MyDatabase/SecurityGroup",
         {| rule_peer := Peer_securityGroup "ECSSecurityGroup";
            rule_port := Port_tcp 5432;
            rule_description := "Allow inbound from ECS" |}) ].
Proof.
  split; [simpl; lia |].
  apply (inbound_rules_complete agnostic "InfraStack" 0); simpl; lia.
Defined.

(** X2. The outbound rules of the template, over all its security groups:
    the compute group and the database group allow all outbound traffic,
    the load balancer's group allows TCP 5001 to the compute group and
    nothing else (the rule that matches no traffic is gone). *)
Theorem outbound_rules_complete env id counter :
  zoneCount env <> 0 ->
  exists t,
    synth env id counter = inr t /\
    allOutboundRules t =
      [ ("ECSSecurityGroup", ALLOW_ALL_RULE);
        ("MyALB/SecurityGroup",
         {| rule_peer := Peer_securityGroup "ECSSecurityGroup";
            rule_port := Port_tcp 5001;
            rule_description := "Load balancer to target" |});
        ("MyDatabase/SecurityGroup", ALLOW_ALL_RULE) ].
Proof. intros H. on_each_template H. Qed.

Lemma outbound_rules_complete_witness :
  zoneCount agnostic <> 0 /\
  exists t,
    synth agnostic "InfraStack" 0 = inr t /\
    allOutboundRules t =
      [ ("ECSSecurityGroup", ALLOW_ALL_RULE);
        ("MyALB/SecurityGroup",
         {| rule_peer := Peer_securityGroup "ECSSecurityGroup";
            rule_port := Port_tcp 5001;
            rule_description := "Load balancer to target" |});
        ("MyDatabase/SecurityGroup", ALLOW_ALL_RULE) ].
Proof.
  split; [simpl; lia |].
  apply (outbound_rules_complete agnostic "InfraStack" 0); simpl; lia.
Defined.

(** X3. The load balancer has one listener, on port 80 with the protocol
    HTTP that goes with that port, and one target group, HTTP as well,
    whose targets are addressed by IP and whose one member is the service
    on TCP 5001; listener and group know each other. *)
Theorem listener_and_target_group env id counter :
  zoneCount env <> 0 ->
  exists t,
    synth env id counter = inr t /\
    exists l g,
      listenersOf t = [("MyALB/MyListener", l)] /\
      targetGroupsOf t = [("MyALB/MyListener/MyFargateServiceGroup", g)] /\
      listener_loadBalancer l = "MyALB" /\
      listener_port l = 80%Z /\
      listener_protocol l = HTTP /\
      listener_defaultAction l = Some ["MyALB/MyListener/MyFargateServiceGroup"] /\
      tg_vpc g = "MyVpc" /\
      tg_protocol g = Some HTTP /\
      tg_targetType g = Some TargetType_IP /\
      tg_connectableMembers g = [("MyService", Port_tcp 5001)] /\
      tg_listeners g = ["MyALB/MyListener"].
Proof. intros H. on_each_template H. Qed.

Lemma listener_and_target_group_witness :
  zoneCount agnostic <> 0 /\
  exists t,
    synth agnostic "InfraStack" 0 = inr t /\
    exists l g,
      listenersOf t = [("MyALB/MyListener", l)] /\
      targetGroupsOf t = [("MyALB/MyListener/MyFargateServiceGroup", g)] /\
      listener_loadBalancer l = "MyALB" /\
      listener_port l = 80%Z /\
      listener_protocol l = HTTP /\
      listener_defaultAction l = Some ["MyALB/MyListener/MyFargateServiceGroup"] /\
      tg_vpc g = "MyVpc" /\
      tg_protocol g = Some HTTP /\
      tg_targetType g = Some TargetType_IP /\
      tg_connectableMembers g = [("MyService", Port_tcp 5001)] /\
      tg_listeners g = ["MyALB/MyListener"].
Proof.
  split; [simpl; lia |].
  apply (listener_and_target_group agnostic "InfraStack" 0); simpl; lia.
Defined.

(** X4. The template has one task definition, of 256 CPU units and 512 MiB
    in the awsvpc network mode, with one container: [MyContainer], the
    default container, essential, run from the image [latest] of the
    repository [teju-ecr], logging under the prefix [MyApp], with one port
    mapping, 5001 over TCP and no host port. *)
Theorem task_definition_shape env id counter :
  zoneCount env <> 0 ->
  exists t,
    synth env id counter = inr t /\
    exists td,
      taskDefinitionsOf t = [("MyTaskDefinition", td)] /\
      cpu td = 256%Z /\
      memoryLimitMiB td = 512%Z /\
      networkMode td = NetworkMode_AWS_VPC /\
      defaultContainer td = Some "MyContainer" /\
      containers td =
        [ {| containerName := "MyContainer";
             container_image :=
               {| image_repository := {| repositoryName := "teju-ecr" |};
                  image_tag := "latest" |};
             container_logging := Some {| streamPrefix := "MyApp" |};
             essential := true;
             portMappings :=
               [ {| containerPort := 5001; hostPort := None; protocol := Some TCP |} ] |} ].
Proof. intros H. on_each_template H. Qed.

Lemma task_definition_shape_witness :
  zoneCount agnostic <> 0 /\
  exists t,
    synth agnostic "InfraStack" 0 = inr t /\
    exists td,
      taskDefinitionsOf t = [("MyTaskDefinition", td)] /\
      cpu td = 256%Z /\
      memoryLimitMiB td = 512%Z /\
      networkMode td = NetworkMode_AWS_VPC /\
      defaultContainer td = Some "MyContainer" /\
      containers td =
        [ {| containerName := "MyContainer";
             container_image :=
               {| image_repository := {| repositoryName := "teju-ecr" |};
                  image_tag := "latest" |};
             container_logging := Some {| streamPrefix := "MyApp" |};
             essential := true;
             portMappings :=
               [ {| containerPort := 5001; hostPort := None; protocol := Some TCP |} ] |} ].
Proof.
  split; [simpl; lia |].
  apply (task_definition_shape agnostic "InfraStack" 0); simpl; lia.
Defined.

(** X5. The template has one cluster, in the network of the stack, and the
    one service runs in it, from the task definition of the stack, with a
    desired count of one.  The service brings no security group of its own:
    the groups of the template are the compute group, the load balancer's
    and the database's. *)
Theorem service_in_cluster env id counter :
  zoneCount env <> 0 ->
  exists t,
    synth env id counter = inr t /\
    exists s,
      clustersOf t = [("MyCluster", {| cluster_vpc := "MyVpc" |})] /\
      servicesOf t = [("MyService", s)] /\
      svc_cluster s = "MyCluster" /\
      svc_taskDefinition s = "MyTaskDefinition" /\
      svc_desiredCount s = Some 1 /\
      map fst (securityGroupsOf t) =
        ["ECSSecurityGroup"; "MyALB/SecurityGroup"; "MyDatabase/SecurityGroup"].
Proof. intros H. on_each_template H. Qed.

Lemma service_in_cluster_witness :
  zoneCount agnostic <> 0 /\
  exists t,
    synth agnostic "InfraStack" 0 = inr t /\
    exists s,
      clustersOf t = [("MyCluster", {| cluster_vpc := "MyVpc" |})] /\
      servicesOf t = [("MyService", s)] /\
      svc_cluster s = "MyCluster" /\
      svc_taskDefinition s = "MyTaskDefinition" /\
      svc_desiredCount s = Some 1 /\
      map fst (securityGroupsOf t) =
        ["ECSSecurityGroup"; "MyALB/SecurityGroup"; "MyDatabase/SecurityGroup"].
Proof.
  split; [simpl; lia |].
  apply (service_in_cluster agnostic "InfraStack" 0); simpl; lia.
Defined.

(** X6. The database instance runs PostgreSQL 13.13 on the instance class
    db.t3.micro, in the subnet group made for it, and the generated secret
    is attached to the instance. *)
Theorem database_engine_and_secret env id counter :
  zoneCount env <> 0 ->
  exists t,
    synth env id counter = inr t /\
    exists d,
      databaseInstancesOf t = [("MyDatabase", d)] /\
      dbi_engine d = {| engineType := "postgres"; engineVersion := "13.13" |} /\
      dbi_instanceClass d = "db.t3.micro" /\
      dbi_subnetGroup d = "MyDatabase/SubnetGroup" /\
      dbi_masterUserPasswordSecret d = "MyDatabase/Secret" /\
      secretAttachmentsOf t =
        [ ("MyDatabase/Secret/Attachment", ("MyDatabase/Secret", "MyDatabase")) ].
Proof. intros H. on_each_template H. Qed.

Lemma database_engine_and_secret_witness :
  zoneCount agnostic <> 0 /\
  exists t,
    synth agnostic "InfraStack" 0 = inr t /\
    exists d,
      databaseInstancesOf t = [("MyDatabase", d)] /\
      dbi_engine d = {| engineType := "postgres"; engineVersion := "13.13" |} /\
      dbi_instanceClass d = "db.t3.micro" /\
      dbi_subnetGroup d = "MyDatabase/SubnetGroup" /\
      dbi_masterUserPasswordSecret d = "MyDatabase/Secret" /\
      secretAttachmentsOf t =
        [ ("MyDatabase/Secret/Attachment", ("MyDatabase/Secret", "MyDatabase")) ].
Proof.
  split; [simpl; lia |].
  apply (database_engine_and_secret agnostic "InfraStack" 0); simpl; lia.
Defined.

(** X7. The template has its service, load balancer, listener, database
    instance, three security groups and two outputs, and every reference in
    it resolves: each network, subnet, gateway, security group, cluster,
    task definition, target group, subnet group, secret or instance a
    resource names, each security group a rule names as its peer and the
    container a service is bound under is in the template and of that kind,
    and each output reads an attribute from a resource of the kind that has
    it. *)
Theorem template_well_referenced env id counter :
  zoneCount env <> 0 ->
  exists t,
    synth env id counter = inr t /\
    map fst (servicesOf t) = ["MyService"] /\
    map fst (loadBalancersOf t) = ["MyALB"] /\
    map fst (listenersOf t) = ["MyALB/MyListener"] /\
    map fst (databaseInstancesOf t) = ["MyDatabase"] /\
    map fst (securityGroupsOf t) =
      ["ECSSecurityGroup"; "MyALB/SecurityGroup"; "MyDatabase/SecurityGroup"] /\
    map fst (Outputs t) = ["LoadBalancerDNS"; "DatabaseEndpoint"] /\
    wellReferenced t = true.
Proof. intros H. on_each_template H. Qed.

Lemma template_well_referenced_witness :
  zoneCount agnostic <> 0 /\
  exists t,
    synth agnostic "InfraStack" 0 = inr t /\
    map fst (servicesOf t) = ["MyService"] /\
    map fst (loadBalancersOf t) = ["MyALB"] /\
    map fst (listenersOf t) = ["MyALB/MyListener"] /\
    map fst (databaseInstancesOf t) = ["MyDatabase"] /\
    map fst (securityGroupsOf t) =
      ["ECSSecurityGroup"; "MyALB/SecurityGroup"; "MyDatabase/SecurityGroup"] /\
    map fst (Outputs t) = ["LoadBalancerDNS"; "DatabaseEndpoint"] /\
    wellReferenced t = true.
Proof.
  split; [simpl; lia |].
  apply (template_well_referenced agnostic "InfraStack" 0); simpl; lia.
Defined.



(** X10. In an environment of one zone the network spans that zone alone,
    with one public and one private subnet and the NAT gateway in the public
    one; service and database are placed in the private subnet, the load
    balancer in the public one. *)
Theorem network_in_one_zone env id counter :
  zoneCount env = 1 ->
  exists t,
    synth env id counter = inr t /\
    exists v,
      vpcsOf t = [("MyVpc", v)] /\
      vpc_availabilityZones v = [0] /\
      map (fun e => (fst e, subnet_availabilityZone (snd e), subnet_type (snd e)))
          (subnetsOf t) =
        [ ("MyVpc/publicSubnetSubnet1", 0, PUBLIC);
          ("MyVpc/privateSubnetSubnet1", 0, PRIVATE_WITH_EGRESS) ] /\
      natGatewaysOf t =
        [ ("MyVpc/publicSubnetSubnet1/NATGateway", "MyVpc/publicSubnetSubnet1") ] /\
      placement t "MyService" = ["MyVpc/privateSubnetSubnet1"] /\
      placement t "MyDatabase" = ["MyVpc/privateSubnetSubnet1"] /\
      placement t "MyALB" = ["MyVpc/publicSubnetSubnet1"].
Proof.
  intros H. rewrite (synth_one_zone env id counter H).
  exists (oneZoneTemplate id). split; [reflexivity |]. vm_compute. settle.
Qed.

Lemma network_in_one_zone_witness :
  zoneCount {| zoneCount := 1 |} = 1 /\
  exists t,
    synth {| zoneCount := 1 |} "InfraStack" 0 = inr t /\
    exists v,
      vpcsOf t = [("MyVpc", v)] /\
      vpc_availabilityZones v = [0] /\
      map (fun e => (fst e, subnet_availabilityZone (snd e), subnet_type (snd e)))
          (subnetsOf t) =
        [ ("MyVpc/publicSubnetSubnet1", 0, PUBLIC);
          ("MyVpc/privateSubnetSubnet1", 0, PRIVATE_WITH_EGRESS) ] /\
      natGatewaysOf t =
        [ ("MyVpc/publicSubnetSubnet1/NATGateway", "MyVpc/publicSubnetSubnet1") ] /\
      placement t "MyService" = ["MyVpc/privateSubnetSubnet1"] /\
      placement t "MyDatabase" = ["MyVpc/privateSubnetSubnet1"] /\
      placement t "MyALB" = ["MyVpc/publicSubnetSubnet1"].
Proof.
  split; [reflexivity |].
  apply (network_in_one_zone {| zoneCount := 1 |} "InfraStack" 0). reflexivity.
Defined.

(** X12. The network has one internet gateway and one NAT gateway, the
    latter in the first public subnet; every public subnet has the internet
    gateway as its default route and every private subnet the NAT gateway,
    so that no private subnet routes to the internet gateway. *)
Theorem default_routes env id counter :
  zoneCount env <> 0 ->
  exists t,
    synth env id counter = inr t /\
    internetGatewaysOf t = [("MyVpc/IGW", "MyVpc")] /\
    natGatewaysOf t =
      [ ("MyVpc/publicSubnetSubnet1/NATGateway", "MyVpc/publicSubnetSubnet1") ] /\
    Forall (fun e =>
              subnet_defaultRoute (snd e) =
              expectedRoute "MyVpc/publicSubnetSubnet1/NATGateway" (snd e))
           (subnetsOf t).
Proof. intros H. on_each_template H. Qed.

Lemma default_routes_witness :
  zoneCount agnostic <> 0 /\
  exists t,
    synth agnostic "InfraStack" 0 = inr t /\
    internetGatewaysOf t = [("MyVpc/IGW", "MyVpc")] /\
    natGatewaysOf t =
      [ ("MyVpc/publicSubnetSubnet1/NATGateway", "MyVpc/publicSubnetSubnet1") ] /\
    Forall (fun e =>
              subnet_defaultRoute (snd e) =
              expectedRoute "MyVpc/publicSubnetSubnet1/NATGateway" (snd e))
           (subnetsOf t).
Proof.
  split; [simpl; lia |].
  apply (default_routes agnostic "InfraStack" 0); simpl; lia.
Defined.
